(** * u2api: the chat-completion gateway of [api/main.go]

    A shallow embedding of the request/response translation engine: the
    model-name tables, the projection of chat messages to the upstream
    history records, the construction of the upstream query, the two
    decode loops over the upstream event stream, and the HTTP handler that
    ties them together.

    Conventions.
    - Go strings are [string]; Go maps are [gmap]; slices are lists.
    - The process-wide variable [originalModel], the response writer and
      the trace of outbound requests are threaded through an explicit
      state [St].
    - What the program takes from its runtime (encoding/json on the two
      values it is applied to, the wall clock, the HTTP client) is an
      explicit environment [Env]; every result about the handlers holds
      for an arbitrary environment.  [refEnv] is a concrete environment
      with an executable JSON codec, on which the handlers can be run. *)

From stdpp Require Import gmap strings list fin_maps sorting pretty.

Set Warnings "-register-all".

Local Open Scope string_scope.
Local Open Scope list_scope.
Local Open Scope Z_scope.

(** ** Go's [strings] package *)

(** [strings.HasPrefix s prefix]. *)
Fixpoint HasPrefix (s prefix : string) {struct prefix} : bool :=
  match prefix with
  | EmptyString => true
  | String p prefix' =>
      match s with
      | EmptyString => false
      | String c s' => if Ascii.eqb c p then HasPrefix s' prefix' else false
      end
  end.

(** The suffix of [s] after its first [n] bytes. *)
Fixpoint dropBytes (n : nat) (s : string) : string :=
  match n, s with
  | O, _ => s
  | S _, EmptyString => EmptyString
  | S n', String _ s' => dropBytes n' s'
  end.

(** [strings.TrimPrefix s prefix]: [s] without the leading [prefix], or
    [s] itself when it does not start with [prefix]. *)
Definition TrimPrefix (s prefix : string) : string :=
  if HasPrefix s prefix then dropBytes (String.length prefix) s else s.

(** ** Wire types *)

(** [YouChatResponse]: one token of the upstream stream. *)
Module YouChatResponse.
Record t := mk { YouChatToken : string }.
End YouChatResponse.

Module Delta.
Record t := mk { Content : string }.
End Delta.

Module Choice.
Record t := mk { Delta : Delta.t; Index : Z; FinishReason : string }.
End Choice.

Module OpenAIStreamResponse.
Record t := mk {
  ID : string; Object : string; Created : Z; Model : string;
  Choices : list Choice.t }.
End OpenAIStreamResponse.

Module Message.
Record t := mk { Role : string; Content : string }.
End Message.

Module OpenAIRequest.
Record t := mk { Messages : list Message.t; Stream : bool; Model : string }.
End OpenAIRequest.

Module OpenAIChoice.
Record t := mk { Message : Message.t; Index : Z; FinishReason : string }.
End OpenAIChoice.

Module OpenAIResponse.
Record t := mk {
  ID : string; Object : string; Created : Z; Model : string;
  Choices : list OpenAIChoice.t }.
End OpenAIResponse.

Module ModelDetail.
Record t := mk { ID : string; Object : string; Created : Z; OwnedBy : string }.
End ModelDetail.

Module ModelResponse.
Record t := mk { Object : string; Data : list ModelDetail.t }.
End ModelResponse.

(** ** Model name translation *)

(** The entries of the [modelMap] literal, in source order. *)
Definition modelTable : list (string * string) :=
  [ ("deepseek-reasoner", "deepseek_r1");
    ("deepseek-chat", "deepseek_v3");
    ("o3-mini-high", "openai_o3_mini_high");
    ("o3-mini-medium", "openai_o3_mini_medium");
    ("o1", "openai_o1");
    ("o1-mini", "openai_o1_mini");
    ("o1-preview", "openai_o1_preview");
    ("gpt-4o", "gpt_4o");
    ("gpt-4o-mini", "gpt_4o_mini");
    ("gpt-4-turbo", "gpt_4_turbo");
    ("gpt-3.5-turbo", "gpt_3.5");
    ("claude-3-opus", "claude_3_opus");
    ("claude-3-sonnet", "claude_3_sonnet");
    ("claude-3.5-sonnet", "claude_3_5_sonnet");
    ("claude-3.5-haiku", "claude_3_5_haiku");
    ("gemini-1.5-pro", "gemini_1_5_pro");
    ("gemini-1.5-flash", "gemini_1_5_flash");
    ("llama-3.2-90b", "llama3_2_90b");
    ("llama-3.1-405b", "llama3_1_405b");
    ("mistral-large-2", "mistral_large_2");
    ("qwen-2.5-72b", "qwen2p5_72b");
    ("qwen-2.5-coder-32b", "qwen2p5_coder_32b");
    ("command-r-plus", "command_r_plus");
    ("claude-3-7-sonnet", "claude_3_7_sonnet");
    ("claude-3-7-sonnet-think", "claude_3_7_sonnet_thinking") ].

(** [modelMap]: client model name to upstream model name. *)
Definition modelMap : gmap string string := list_to_map modelTable.

(** The loop of [getReverseModelMap], run over the entries in the order
    [order].  Go leaves the order of [range] over a map unspecified. *)
Definition reverseOver (order : list (string * string)) : gmap string string :=
  foldl (fun reverse kv => <[kv.2 := kv.1]> reverse) ∅ order.

(** [getReverseModelMap], with the entries visited in the order of
    [map_to_list]; [getReverseModelMap_any_order] shows that the order
    does not matter for this table. *)
Definition getReverseModelMap : gmap string string :=
  reverseOver (map_to_list modelMap).

Definition mapModelName (openAIModel : string) : string :=
  match modelMap !! openAIModel with
  | Some mappedModel => mappedModel
  | None => "deepseek_v3"
  end.

Definition reverseMapModelName (youModel : string) : string :=
  let reverseMap := getReverseModelMap in
  match reverseMap !! youModel with
  | Some mappedModel => mappedModel
  | None => "deepseek-chat"
  end.

(** ** History projection *)

(** The body of the loop that builds [chatHistory]: the map literal, then
    the two assignments made for an assistant message. *)
Definition chatMsgOf (msg : Message.t) : gmap string string :=
  let chatMsg : gmap string string :=
    <["answer" := ""]> (<["question" := Message.Content msg]> ∅) in
  if String.eqb (Message.Role msg) "assistant" then
    <["answer" := Message.Content msg]> (<["question" := ""]> chatMsg)
  else chatMsg.

(** [for _, msg := range openAIReq.Messages { ...; chatHistory = append(chatHistory, chatMsg) }] *)
Definition buildChatHistory (messages : list Message.t) : list (gmap string string) :=
  foldl (fun chatHistory msg => chatHistory ++ [chatMsgOf msg]) [] messages.

(** Whether [record[key]] is present and not the empty string. *)
Definition nonEmptyField (record : gmap string string) (key : string) : bool :=
  match record !! key with
  | Some s => negb (String.eqb s "")
  | None => false
  end.

(** Go's slice indexing [s[i]] with its bounds check: [None] is the
    run-time panic. *)
Definition index {A} (s : list A) (i : Z) : option A :=
  if (i <? 0) || (Z.of_nat (length s) <=? i) then None else s !! Z.to_nat i.

(** ** Requests, responses and the handler's state *)

(** The inbound request as the handler reads it: [Authorization] is
    [r.Header.Get("Authorization")] (empty when the header is absent) and
    [Body] is the outcome of decoding the JSON body into an
    [OpenAIRequest] ([None]: the decoder returned an error). *)
Module Request.
Record t := mk {
  Path : string; Method : string; Authorization : string;
  Body : option OpenAIRequest.t }.
End Request.

(** The outbound request [youReq].  [Query] lists the parameters in the
    order of the [q.Add] calls (the wire form [q.Encode()] sorts them by
    key and escapes them). *)
Module YouRequest.
Record t := mk {
  Method : string; URL : string;
  Query : list (string * string);
  Header : gmap string (list string) }.
End YouRequest.

(** What [client.Do] gives back: a transport error, or a response whose
    body is read line by line by a [bufio.Scanner].  [lines] are the
    lines of the body as it arrives (the bytes between its newlines; the
    upstream ends its lines with a bare newline), up to the point where
    reading fails if it does.  [readErr] tells
    whether the scanner of [handleNonStreamingResponse], whose buffer is
    raised to 1 MiB, stops on an error (a failed read, a line that does
    not fit that buffer) rather than at the end of the input; when it is
    false, that scanner delivers every line of [lines].  The scanner of
    [handleStreamingResponse] keeps the default buffer of 64 KiB: of the
    same body it delivers [streamLines lines], defined below. *)
Inductive UpstreamResult :=
  | DoErr (msg : string)
  | DoResp (lines : list string) (readErr : bool).

(** What has been written to the client.  JSON values are kept as values;
    their encoding is not modelled.  The writer is the one [net/http]
    hands to a handler: it implements [http.Flusher], so the assertion
    [w.(http.Flusher)] of the streaming loop holds and [Flush] changes
    nothing of what is written.  The same code on a writer without
    [Flush], on which that assertion panics, is [scanStreamingOn],
    [handleStreamingResponseOn] and [HandlerOn] below. *)
Inductive Payload :=
  | PText (s : string)
  | PModels (v : ModelResponse.t)
  | PStatus (v : gmap string string)
  | PCompletion (v : OpenAIResponse.t)
  | PChunk (v : OpenAIStreamResponse.t).

Module ResponseWriter.
Record t := mk {
  Header : gmap string string;
  Code : option Z;
  Body : list Payload }.
Definition fresh : t := mk ∅ None [].
End ResponseWriter.

(** The state threaded through a run of the handler: the package-level
    variable [originalModel], the number of clock readings made so far,
    the response writer [w], and the requests handed to [client.Do].
    The embedding follows one run of the handler from its call to its
    return: [originalModel] is the variable as this run finds it, writes
    it and reads it back.  The program does not protect the variable,
    and another request running at the same time may overwrite it while
    this run waits for the upstream; such interleavings are outside the
    embedding. *)
Record St := mkSt {
  originalModel : string;
  clockReads : nat;
  w : ResponseWriter.t;
  sent : list YouRequest.t }.

(** The state in which the server calls the handler: whatever
    [originalModel] the previous request left, a fresh writer, nothing
    sent. *)
Definition initSt (leftover : string) : St :=
  mkSt leftover 0 ResponseWriter.fresh [].

(** The runtime the handler runs against.
    - [jsonUnmarshal data]: [json.Unmarshal(data, &token)] on a zero
      [YouChatResponse]; the pair is ([err != nil], [token] afterwards).
    - [jsonMarshal]: [json.Marshal] of the chat history.
    - [unixNow n]: the value of [time.Now().Unix()] at the [n]-th reading.
    - [clientDo]: [client.Do]. *)
Record Env := mkEnv {
  jsonUnmarshal : string -> bool * YouChatResponse.t;
  jsonMarshal : list (gmap string string) -> string;
  unixNow : nat -> Z;
  clientDo : YouRequest.t -> UpstreamResult }.

Inductive Outcome :=
  | Returned (st : St)
  | Panicked (st : St) (msg : string).

Definition finalSt (o : Outcome) : St :=
  match o with Returned st | Panicked st _ => st end.

(** *** The response writer *)

Definition withWriter (f : ResponseWriter.t -> ResponseWriter.t) (st : St) : St :=
  mkSt (originalModel st) (clockReads st) (f (w st)) (sent st).

(** [w.Header().Set(key, value)] *)
Definition HeaderSet (key value : string) : St -> St :=
  withWriter (fun w => ResponseWriter.mk (<[key := value]> (ResponseWriter.Header w))
                         (ResponseWriter.Code w) (ResponseWriter.Body w)).

(** [w.Header().Del(key)] *)
Definition HeaderDel (key : string) : St -> St :=
  withWriter (fun w => ResponseWriter.mk (delete key (ResponseWriter.Header w))
                         (ResponseWriter.Code w) (ResponseWriter.Body w)).

(** [w.WriteHeader(code)]: only the first status code counts. *)
Definition WriteHeader (code : Z) : St -> St :=
  withWriter (fun w => ResponseWriter.mk (ResponseWriter.Header w)
                         (match ResponseWriter.Code w with
                          | None => Some code
                          | Some c => Some c
                          end)
                         (ResponseWriter.Body w)).

(** A write to [w]: sends status 200 first if no status was written. *)
Definition Write (p : Payload) (st : St) : St :=
  withWriter (fun w => ResponseWriter.mk (ResponseWriter.Header w)
                         (ResponseWriter.Code w) (ResponseWriter.Body w ++ [p]))
             (WriteHeader 200 st).

Definition newline : string := String (Ascii.ascii_of_nat 10) EmptyString.

(** [http.Error(w, msg, code)] *)
Definition httpError (msg : string) (code : Z) (st : St) : St :=
  let st := HeaderDel "Content-Length" st in
  let st := HeaderSet "Content-Type" "text/plain; charset=utf-8" st in
  let st := HeaderSet "X-Content-Type-Options" "nosniff" st in
  let st := WriteHeader code st in
  Write (PText (msg +:+ newline)) st.

Definition StatusOK : Z := 200.
Definition StatusBadRequest : Z := 400.
Definition StatusUnauthorized : Z := 401.
Definition StatusInternalServerError : Z := 500.

(** The request [req] is handed to [client.Do]. *)
Definition recordSent (req : YouRequest.t) (st : St) : St :=
  mkSt (originalModel st) (clockReads st) (w st) (sent st ++ [req]).

Definition setOriginalModel (model : string) (st : St) : St :=
  mkSt model (clockReads st) (w st) (sent st).

(** ** The line scanner

    The unread part of the upstream body is a list of lines.  The loops
    below recurse on it; the inner [scanner.Scan(); scanner.Text()] of a
    token event is [scanText] and leaves [scanRest] unread.  When the
    input is exhausted, [Scan] returns false and [Text] is empty. *)
Definition scanText (unread : list string) : string :=
  match unread with
  | [] => ""
  | line :: _ => line
  end.

Definition scanRest (unread : list string) : list string :=
  match unread with
  | [] => unread
  | _ :: rest => rest
  end.

Definition tokenEvent : string := "event: youChatToken".
Definition dataPrefix : string := "data: ".

(** [bufio.MaxScanTokenSize]: the buffer of a scanner made by
    [bufio.NewScanner] grows to 64 KiB and no further. *)
Definition MaxScanTokenSize : nat := 64 * 1024.

(** A line of [MaxScanTokenSize] bytes or more does not fit the buffer
    together with its newline: the [Scan] that meets it returns false
    (with [ErrTooLong]) and leaves [Text] empty. *)
Definition tooLong (line : string) : bool :=
  Nat.leb MaxScanTokenSize (String.length line).

(** The first [n] bytes of [s]. *)
Fixpoint takeBytes (n : nat) (s : string) : string :=
  match n, s with
  | S n', String c s' => String c (takeBytes n' s')
  | _, _ => EmptyString
  end.

(** [dropCR] of [bufio]: a final carriage return is dropped. *)
Fixpoint dropCR (s : string) : string :=
  match s with
  | EmptyString => EmptyString
  | String c EmptyString =>
      if Ascii.eqb c (Ascii.ascii_of_nat 13) then EmptyString else s
  | String c s' => String c (dropCR s')
  end.

(** What the streaming loop gets from its scanner, whose buffer is the
    default one, when the body consists of [body]; the result is read by
    the loop like an unbounded list ([scanText], [scanRest]).
    - A line that fits is delivered.
    - A line that is too long, met by the [Scan] of the loop condition:
      [Scan] returns false and the loop ends; nothing after it is read.
    - A line that is too long, met by the [Scan] inside the loop (the
      line after a token-event marker): that [Scan] returns false and
      [Text] is empty, so the data is the empty string; as the scanner
      now holds an error, the next [Scan] takes the 64 KiB in its buffer
      for a final line and delivers them; the [Scan] after that returns
      false. *)
Fixpoint streamLines (body : list string) : list string :=
  match body with
  | [] => []
  | line :: rest =>
      if tooLong line then []
      else if HasPrefix line tokenEvent then
        match rest with
        | [] => [line]
        | data :: rest' =>
            if tooLong data
            then [line; ""; dropCR (takeBytes MaxScanTokenSize data)]
            else line :: data :: streamLines rest'
        end
      else line :: streamLines rest
  end.

Definition doubleQuote : string := String (Ascii.ascii_of_nat 34) EmptyString.

(** [strings.Join(elems, sep)] *)
Fixpoint Join (elems : list string) (sep : string) : string :=
  match elems with
  | [] => ""
  | [e] => e
  | e :: rest => e +:+ sep +:+ Join rest sep
  end.

(** [getCookies] *)
Definition getCookies (dsToken : string) : gmap string string :=
  <["youchat_smart_learn" := "true"]>
  (<["ai_model" := "deepseek_r1"]>
  (<["youpro_subscription" := "true"]>
  (<["you_subscription" := "youpro_standard_year"]>
  (<["DS" := dsToken]>
  (<["youchat_personalization" := "true"]>
  (<["guest_has_seen_legal_disclaimer" := "true"]> ∅)))))).

(** The header literal assigned to [youReq.Header]. *)
Definition youHeaders : gmap string (list string) :=
  list_to_map
    [ ("sec-ch-ua-platform", ["Windows"]);
      ("Cache-Control", ["no-cache"]);
      ("sec-ch-ua",
        [doubleQuote +:+ "Not(A:Brand" +:+ doubleQuote +:+ ";v=" +:+
         doubleQuote +:+ "99" +:+ doubleQuote +:+ ", " +:+
         doubleQuote +:+ "Microsoft Edge" +:+ doubleQuote +:+ ";v=" +:+
         doubleQuote +:+ "133" +:+ doubleQuote +:+ ", " +:+
         doubleQuote +:+ "Chromium" +:+ doubleQuote +:+ ";v=" +:+
         doubleQuote +:+ "133" +:+ doubleQuote]);
      ("sec-ch-ua-bitness", ["64"]);
      ("sec-ch-ua-model", [""]);
      ("sec-ch-ua-mobile", ["?0"]);
      ("sec-ch-ua-arch", ["x86"]);
      ("sec-ch-ua-full-version", ["133.0.3065.39"]);
      ("Accept", ["text/event-stream"]);
      ("User-Agent",
        ["Mozilla/5.0 (Windows NT 10.0; Win64; x64) AppleWebKit/537.36 (KHTML, like Gecko) Chrome/133.0.0.0 Safari/537.36 Edg/133.0.0.0"]);
      ("sec-ch-ua-platform-version", ["19.0.0"]);
      ("Sec-Fetch-Site", ["same-origin"]);
      ("Sec-Fetch-Mode", ["cors"]);
      ("Sec-Fetch-Dest", ["empty"]);
      ("Host", ["you.com"]) ].

(** [youReq.Header.Add(key, value)] *)
Definition HeaderAdd (key value : string) (h : gmap string (list string))
  : gmap string (list string) :=
  <[key := default [] (h !! key) ++ [value]]> h.

(** The cookie strings, in the order of [map_to_list] (the program
    ranges over the map, in an order Go leaves unspecified). *)
Definition cookieStrings (cookies : gmap string string) : list string :=
  foldl (fun cookieStrings nv => cookieStrings ++ [nv.1 +:+ "=" +:+ nv.2])
        [] (map_to_list cookies).

Section Gateway.

Variable E : Env.

(** [time.Now().Unix()] *)
Definition timeNowUnix (st : St) : Z * St :=
  (unixNow E (clockReads st),
   mkSt (originalModel st) (S (clockReads st)) (w st) (sent st)).

(** *** The buffering assembler *)

(** The scan loop of [handleNonStreamingResponse], on the unread lines
    of the body, with the builder [fullResponse] as accumulator. *)
Fixpoint scanNonStreaming (unread : list string) (fullResponse : string) : string :=
  match unread with
  | [] => fullResponse
  | line :: unread =>
      if HasPrefix line tokenEvent then
        let data := scanText unread in
        if negb (HasPrefix data dataPrefix) then
          scanNonStreaming (scanRest unread) fullResponse
        else
          let '(err, token) := jsonUnmarshal E (TrimPrefix data dataPrefix) in
          if err then scanNonStreaming (scanRest unread) fullResponse
          else scanNonStreaming (scanRest unread)
                 (fullResponse +:+ YouChatResponse.YouChatToken token)
      else scanNonStreaming unread fullResponse
  end.

(** Writes to the client are taken to succeed, so the branch that
    reports an encoding error after [Encode] has no counterpart. *)
Definition handleNonStreamingResponse (youReq : YouRequest.t) (st : St) : St :=
  let st := recordSent youReq st in
  match clientDo E youReq with
  | DoErr msg => httpError msg StatusInternalServerError st
  | DoResp lines readErr =>
      let fullResponse := scanNonStreaming lines "" in
      if readErr then
        httpError "Error reading response" StatusInternalServerError st
      else
        let '(t, st) := timeNowUnix st in
        let id := "chatcmpl-" +:+ pretty t in
        let '(created, st) := timeNowUnix st in
        let openAIResp :=
          OpenAIResponse.mk id "chat.completion" created
            (reverseMapModelName (mapModelName (originalModel st)))
            [ OpenAIChoice.mk (Message.mk "assistant" fullResponse) 0 "stop" ] in
        let st := HeaderSet "Content-Type" "application/json" st in
        Write (PCompletion openAIResp) st
  end.

(** *** The streaming assembler *)

(** The chunk built for one token event. *)
Definition streamChunk (token : YouChatResponse.t) (st : St)
  : OpenAIStreamResponse.t * St :=
  let '(t, st) := timeNowUnix st in
  let id := "chatcmpl-" +:+ pretty t in
  let '(created, st) := timeNowUnix st in
  (OpenAIStreamResponse.mk id "chat.completion.chunk" created
     (reverseMapModelName (mapModelName (originalModel st)))
     [ Choice.mk (Delta.mk (YouChatResponse.YouChatToken token)) 0 "" ],
   st).

(** The scan loop of [handleStreamingResponse], on the lines its scanner
    delivers.  The write of a chunk stands for [fmt.Fprintf] and the
    [Flush] that follows it. *)
Fixpoint scanStreaming (unread : list string) (st : St) : St :=
  match unread with
  | [] => st
  | line :: unread =>
      if HasPrefix line tokenEvent then
        let data := scanText unread in
        let '(_, token) := jsonUnmarshal E (TrimPrefix data dataPrefix) in
        let '(openAIResp, st) := streamChunk token st in
        scanStreaming (scanRest unread) (Write (PChunk openAIResp) st)
      else scanStreaming unread st
  end.

Definition handleStreamingResponse (youReq : YouRequest.t) (st : St) : St :=
  let st := recordSent youReq st in
  match clientDo E youReq with
  | DoErr msg => httpError msg StatusInternalServerError st
  | DoResp lines _ =>
      let st := HeaderSet "Content-Type" "text/event-stream" st in
      let st := HeaderSet "Cache-Control" "no-cache" st in
      let st := HeaderSet "Connection" "keep-alive" st in
      scanStreaming (streamLines lines) st
  end.

(** *** The handler *)

Definition isModelsPath (path : string) : bool :=
  String.eqb path "/v1/models" || String.eqb path "/api/v1/models".

Definition isChatPath (path : string) : bool :=
  String.eqb path "/v1/chat/completions"
  || String.eqb path "/none/v1/chat/completions"
  || String.eqb path "/such/chat/completions".

(** The model list of [/v1/models], in the order of [map_to_list]. *)
Definition listModels (created : Z) : list ModelDetail.t :=
  foldl (fun models kv =>
           models ++ [ModelDetail.mk kv.1 "model" created "organization-owner"])
        [] (map_to_list modelMap).

(** The query parameters of the upstream request. *)
Definition buildQuery (openAIReq : OpenAIRequest.t) (lastMessage : string)
    (chatHistory : list (gmap string string)) : list (string * string) :=
  [ ("q", lastMessage);
    ("page", "1");
    ("count", "10");
    ("safeSearch", "Moderate");
    ("mkt", "zh-HK");
    ("enable_worklow_generation_ux", "true");
    ("domain", "youchat");
    ("use_personalization_extraction", "true");
    ("pastChatLength", pretty (Z.of_nat (length chatHistory) - 1));
    ("selectedChatMode", "custom");
    ("selectedAiModel", mapModelName (OpenAIRequest.Model openAIReq));
    ("enable_agent_clarification_questions", "true");
    ("use_nested_youchat_updates", "true");
    ("chat", jsonMarshal E chatHistory) ].

Definition Handler (r : Request.t) (st : St) : Outcome :=
  if isModelsPath (Request.Path r) then
    let st := HeaderSet "Content-Type" "application/json" st in
    let st := HeaderSet "Access-Control-Allow-Origin" "*" st in
    let st := HeaderSet "Access-Control-Allow-Methods" "GET, OPTIONS" st in
    let st := HeaderSet "Access-Control-Allow-Headers" "*" st in
    if String.eqb (Request.Method r) "OPTIONS" then
      Returned (WriteHeader StatusOK st)
    else
      let '(created, st) := timeNowUnix st in
      let response := ModelResponse.mk "list" (listModels created) in
      Returned (Write (PModels response) st)
  else if negb (isChatPath (Request.Path r)) then
    let st := HeaderSet "Content-Type" "application/json" st in
    Returned (Write (PStatus (<["message" := "MoLoveSze..."]>
                             (<["status" := "You2Api Service Running..."]> ∅))) st)
  else
    let st := HeaderSet "Access-Control-Allow-Origin" "*" st in
    let st := HeaderSet "Access-Control-Allow-Methods" "GET, POST, OPTIONS" st in
    let st := HeaderSet "Access-Control-Allow-Headers" "*" st in
    if String.eqb (Request.Method r) "OPTIONS" then
      Returned (WriteHeader StatusOK st)
    else
      let authHeader := Request.Authorization r in
      if negb (HasPrefix authHeader "Bearer ") then
        Returned (httpError "Missing or invalid authorization header"
                            StatusUnauthorized st)
      else
        let dsToken := TrimPrefix authHeader "Bearer " in
        match Request.Body r with
        | None => Returned (httpError "Invalid request body" StatusBadRequest st)
        | Some openAIReq =>
            let st := setOriginalModel (OpenAIRequest.Model openAIReq) st in
            let messages := OpenAIRequest.Messages openAIReq in
            match index messages (Z.of_nat (length messages) - 1) with
            | None => Panicked st "runtime error: index out of range [-1]"
            | Some last =>
                let lastMessage := Message.Content last in
                let chatHistory := buildChatHistory messages in
                let q := buildQuery openAIReq lastMessage chatHistory in
                let cookies := getCookies dsToken in
                let header :=
                  HeaderAdd "Cookie" (Join (cookieStrings cookies) ";") youHeaders in
                let youReq :=
                  YouRequest.mk "GET" "https://you.com/api/streamingSearch" q header in
                if negb (OpenAIRequest.Stream openAIReq) then
                  Returned (handleNonStreamingResponse youReq st)
                else
                  Returned (handleStreamingResponse youReq st)
            end
        end.

(** *** A writer without [Flush]

    After each chunk [handleStreamingResponse] calls
    [w.(http.Flusher).Flush()]: a type assertion in its one-valued form,
    which panics when the writer has no [Flush] method.  The writers of
    net/http's server have one, and [scanStreaming],
    [handleStreamingResponse] and [Handler] above are the program on
    such a writer.  The definitions below are the same code with the
    writer's side as a parameter: [flusher] tells whether [w] implements
    [http.Flusher].  The chunk is written before the assertion is
    evaluated, so the state of the panic holds it.  (The text of the
    panic names the writer's type, which is left out here.) *)

Fixpoint scanStreamingOn (flusher : bool) (unread : list string) (st : St)
  : Outcome :=
  match unread with
  | [] => Returned st
  | line :: unread =>
      if HasPrefix line tokenEvent then
        let data := scanText unread in
        let '(_, token) := jsonUnmarshal E (TrimPrefix data dataPrefix) in
        let '(openAIResp, st) := streamChunk token st in
        let st := Write (PChunk openAIResp) st in
        if flusher then scanStreamingOn flusher (scanRest unread) st
        else Panicked st "interface conversion: not http.Flusher: missing method Flush"
      else scanStreamingOn flusher unread st
  end.

Definition handleStreamingResponseOn (flusher : bool) (youReq : YouRequest.t)
    (st : St) : Outcome :=
  let st := recordSent youReq st in
  match clientDo E youReq with
  | DoErr msg => Returned (httpError msg StatusInternalServerError st)
  | DoResp lines _ =>
      let st := HeaderSet "Content-Type" "text/event-stream" st in
      let st := HeaderSet "Cache-Control" "no-cache" st in
      let st := HeaderSet "Connection" "keep-alive" st in
      scanStreamingOn flusher (streamLines lines) st
  end.

Definition HandlerOn (flusher : bool) (r : Request.t) (st : St) : Outcome :=
  if isModelsPath (Request.Path r) then
    let st := HeaderSet "Content-Type" "application/json" st in
    let st := HeaderSet "Access-Control-Allow-Origin" "*" st in
    let st := HeaderSet "Access-Control-Allow-Methods" "GET, OPTIONS" st in
    let st := HeaderSet "Access-Control-Allow-Headers" "*" st in
    if String.eqb (Request.Method r) "OPTIONS" then
      Returned (WriteHeader StatusOK st)
    else
      let '(created, st) := timeNowUnix st in
      let response := ModelResponse.mk "list" (listModels created) in
      Returned (Write (PModels response) st)
  else if negb (isChatPath (Request.Path r)) then
    let st := HeaderSet "Content-Type" "application/json" st in
    Returned (Write (PStatus (<["message" := "MoLoveSze..."]>
                             (<["status" := "You2Api Service Running..."]> ∅))) st)
  else
    let st := HeaderSet "Access-Control-Allow-Origin" "*" st in
    let st := HeaderSet "Access-Control-Allow-Methods" "GET, POST, OPTIONS" st in
    let st := HeaderSet "Access-Control-Allow-Headers" "*" st in
    if String.eqb (Request.Method r) "OPTIONS" then
      Returned (WriteHeader StatusOK st)
    else
      let authHeader := Request.Authorization r in
      if negb (HasPrefix authHeader "Bearer ") then
        Returned (httpError "Missing or invalid authorization header"
                            StatusUnauthorized st)
      else
        let dsToken := TrimPrefix authHeader "Bearer " in
        match Request.Body r with
        | None => Returned (httpError "Invalid request body" StatusBadRequest st)
        | Some openAIReq =>
            let st := setOriginalModel (OpenAIRequest.Model openAIReq) st in
            let messages := OpenAIRequest.Messages openAIReq in
            match index messages (Z.of_nat (length messages) - 1) with
            | None => Panicked st "runtime error: index out of range [-1]"
            | Some last =>
                let lastMessage := Message.Content last in
                let chatHistory := buildChatHistory messages in
                let q := buildQuery openAIReq lastMessage chatHistory in
                let cookies := getCookies dsToken in
                let header :=
                  HeaderAdd "Cookie" (Join (cookieStrings cookies) ";") youHeaders in
                let youReq :=
                  YouRequest.mk "GET" "https://you.com/api/streamingSearch" q header in
                if negb (OpenAIRequest.Stream openAIReq) then
                  Returned (handleNonStreamingResponse youReq st)
                else
                  handleStreamingResponseOn flusher youReq st
            end
        end.

End Gateway.

(** ** A reference JSON codec

    An executable rendering of what [encoding/json] does on the two
    values the gateway applies it to: decoding a data line into a
    [YouChatResponse] and encoding the chat history.  It follows the
    package's documented behaviour (RFC 8259 syntax; a syntax error leaves
    the destination untouched; object keys match the field name exactly or
    under case folding; a value of the wrong type is reported and skipped;
    [null] is a no-op; invalid UTF-8 and lone surrogates become U+FFFD;
    arrays and objects nest to a depth of 10000 at most; the encoder
    sorts the keys of a map, escapes the characters HTML could misread,
    U+2028 and U+2029, and writes invalid UTF-8 as the escape of U+FFFD).
    The handlers do not depend on it: they take their codec from [Env]. *)
Module Json.

Inductive value :=
  | Null
  | Bool (b : bool)
  | Number (literal : string)
  | Str (s : string)
  | Array (elems : list value)
  | Object (members : list (string * value)).

(** The content of a string literal before unquoting: raw bytes (simple
    escapes already resolved) and the code units of [\uXXXX] escapes. *)
Inductive sitem :=
  | SByte (b : N)
  | SUnit (u : N).

Definition byte (n : N) : string := String (Ascii.ascii_of_N n) EmptyString.

(** [utf8.EncodeRune] *)
Definition encodeRune (cp : N) : string :=
  (if cp <? 128 then byte cp
   else if cp <? 2048 then
     byte (192 + cp / 64) +:+ byte (128 + cp mod 64)
   else if cp <? 65536 then
     byte (224 + cp / 4096) +:+ byte (128 + (cp / 64) mod 64)
     +:+ byte (128 + cp mod 64)
   else
     byte (240 + cp / 262144) +:+ byte (128 + (cp / 4096) mod 64)
     +:+ byte (128 + (cp / 64) mod 64) +:+ byte (128 + cp mod 64))%N.

Definition replacementChar : N := 65533.

Definition rawIn (lo hi : N) (it : option sitem) : bool :=
  match it with
  | Some (SByte b) => ((lo <=? b) && (b <=? hi))%N
  | _ => false
  end.

(** The number of continuation bytes of the well-formed UTF-8 sequence
    that starts with the raw byte [b0] before [rest]; [None] when there
    is no such sequence. *)
Definition continuation (b0 : N) (rest : list sitem) : option nat :=
  let at1 lo hi := rawIn lo hi (rest !! 0%nat) in
  let c2 := rawIn 128 191 (rest !! 1%nat) in
  let c3 := rawIn 128 191 (rest !! 2%nat) in
  (if (194 <=? b0) && (b0 <=? 223) then
     if at1 128 191 then Some 1%nat else None
   else if b0 =? 224 then if at1 160 191 && c2 then Some 2%nat else None
   else if b0 =? 237 then if at1 128 159 && c2 then Some 2%nat else None
   else if (225 <=? b0) && (b0 <=? 239) then
     if at1 128 191 && c2 then Some 2%nat else None
   else if b0 =? 240 then if at1 144 191 && c2 && c3 then Some 3%nat else None
   else if (241 <=? b0) && (b0 <=? 243) then
     if at1 128 191 && c2 && c3 then Some 3%nat else None
   else if b0 =? 244 then if at1 128 143 && c2 && c3 then Some 3%nat else None
   else None)%N.

(** Unquoting: [copy] counts the continuation bytes still to be copied
    from a sequence already found well-formed. *)
Fixpoint unquote (copy : nat) (items : list sitem) : string :=
  match items with
  | [] => ""
  | SByte b :: rest =>
      match copy with
      | S copy' => byte b +:+ unquote copy' rest
      | O =>
          if (b <? 128)%N then byte b +:+ unquote O rest
          else match continuation b rest with
               | Some n => byte b +:+ unquote n rest
               | None => encodeRune replacementChar +:+ unquote O rest
               end
      end
  | SUnit u :: rest =>
      if ((55296 <=? u) && (u <? 57344))%N then
        match rest with
        | SUnit u2 :: rest' =>
            if ((u <? 56320) && (56320 <=? u2) && (u2 <? 57344))%N then
              encodeRune (65536 + (u - 55296) * 1024 + (u2 - 56320))%N
              +:+ unquote O rest'
            else encodeRune replacementChar +:+ unquote O rest
        | _ => encodeRune replacementChar +:+ unquote O rest
        end
      else encodeRune u +:+ unquote O rest
  end.

Inductive frame :=
  | FArray (elems : list value)
  | FObject (members : list (string * value)) (key : option string).

Inductive strState := SPlain | SEsc | SHex (digits : list N).

Inductive numState :=
  | NMinus | NZero | NInt | NDot | NFrac | NExp | NExpSign | NExpInt.

Inductive mode :=
  | MValue | MValueOrEnd | MKeyOrEnd | MKey | MColon | MAfter
  | MDone (v : value)
  | MString (isKey : bool) (items : list sitem) (s : strState)
  | MNumber (n : numState) (literal : string)
  | MLiteral (rest : string) (v : value).

Definition pstate : Type := mode * list frame.

Definition isSpace (c : N) : bool :=
  ((c =? 32) || (c =? 9) || (c =? 13) || (c =? 10))%N.

Definition isDigit (c : N) : bool := ((48 <=? c) && (c <=? 57))%N.

Definition hexDigit (c : N) : option N :=
  (if (48 <=? c) && (c <=? 57) then Some (c - 48)
   else if (97 <=? c) && (c <=? 102) then Some (c - 87)
   else if (65 <=? c) && (c <=? 70) then Some (c - 55)
   else None)%N.

(** A finished value goes to the enclosing array or object, or is the
    top-level value. *)
Definition reduce (v : value) (stack : list frame) : option pstate :=
  match stack with
  | [] => Some (MDone v, [])
  | FArray elems :: stack => Some (MAfter, FArray (elems ++ [v]) :: stack)
  | FObject members (Some k) :: stack =>
      Some (MAfter, FObject (members ++ [(k, v)]) None :: stack)
  | FObject _ None :: _ => None
  end.

(** The decoder's limit on nested arrays and objects. *)
Definition maxNestingDepth : N := 10000.

(** Opening an array or an object: an error beyond the limit. *)
Definition push (m : mode) (f : frame) (stack : list frame) : option pstate :=
  if (N.of_nat (length stack) <? maxNestingDepth)%N
  then Some (m, f :: stack) else None.

Definition beginValue (c : N) (stack : list frame) : option pstate :=
  (if c =? 123 then push MKeyOrEnd (FObject [] None) stack
   else if c =? 91 then push MValueOrEnd (FArray []) stack
   else if c =? 34 then Some (MString false [] SPlain, stack)
   else if c =? 45 then Some (MNumber NMinus (byte c), stack)
   else if c =? 48 then Some (MNumber NZero (byte c), stack)
   else if isDigit c then Some (MNumber NInt (byte c), stack)
   else if c =? 116 then Some (MLiteral "rue" (Bool true), stack)
   else if c =? 102 then Some (MLiteral "alse" (Bool false), stack)
   else if c =? 110 then Some (MLiteral "ull" Null, stack)
   else None)%N.

Definition closeArray (stack : list frame) : option pstate :=
  match stack with
  | FArray elems :: stack => reduce (Array elems) stack
  | _ => None
  end.

Definition closeObject (stack : list frame) : option pstate :=
  match stack with
  | FObject members None :: stack => reduce (Object members) stack
  | _ => None
  end.

Definition stepString (isKey : bool) (items : list sitem) (s : strState)
    (c : N) (stack : list frame) : option pstate :=
  match s with
  | SPlain =>
      (if c =? 34 then
         let text := unquote O items in
         if isKey then
           match stack with
           | FObject members None :: stack =>
               Some (MColon, FObject members (Some text) :: stack)
           | _ => None
           end
         else reduce (Str text) stack
       else if c =? 92 then Some (MString isKey items SEsc, stack)
       else if c <? 32 then None
       else Some (MString isKey (items ++ [SByte c]) SPlain, stack))%N
  | SEsc =>
      let plain b := Some (MString isKey (items ++ [SByte b]) SPlain, stack) in
      (if (c =? 34) || (c =? 92) || (c =? 47) then plain c
       else if c =? 98 then plain 8
       else if c =? 102 then plain 12
       else if c =? 110 then plain 10
       else if c =? 114 then plain 13
       else if c =? 116 then plain 9
       else if c =? 117 then Some (MString isKey items (SHex []), stack)
       else None)%N
  | SHex digits =>
      match hexDigit c with
      | None => None
      | Some h =>
          match digits with
          | [d1; d2; d3] =>
              Some (MString isKey
                      (items ++ [SUnit (((d1 * 16 + d2) * 16 + d3) * 16 + h)%N])
                      SPlain, stack)
          | _ => Some (MString isKey items (SHex (digits ++ [h])), stack)
          end
      end
  end.

(** The next state inside a number, or [None] when [c] is not part of it. *)
Definition stepNumber (n : numState) (c : N) : option numState :=
  let isE := ((c =? 101) || (c =? 69))%N in
  match n with
  | NMinus => (if c =? 48 then Some NZero
               else if isDigit c then Some NInt else None)%N
  | NZero => (if c =? 46 then Some NDot else if isE then Some NExp else None)%N
  | NInt => (if isDigit c then Some NInt
             else if c =? 46 then Some NDot
             else if isE then Some NExp else None)%N
  | NDot => if isDigit c then Some NFrac else None
  | NFrac => if isDigit c then Some NFrac else if isE then Some NExp else None
  | NExp => (if (c =? 43) || (c =? 45) then Some NExpSign
             else if isDigit c then Some NExpInt else None)%N
  | NExpSign => if isDigit c then Some NExpInt else None
  | NExpInt => if isDigit c then Some NExpInt else None
  end.

Definition numberComplete (n : numState) : bool :=
  match n with
  | NZero | NInt | NFrac | NExpInt => true
  | _ => false
  end.

(** One byte in a state that is not inside a number. *)
Definition stepOutside (m : mode) (c : N) (stack : list frame) : option pstate :=
  match m with
  | MValue => if isSpace c then Some (m, stack) else beginValue c stack
  | MValueOrEnd =>
      if isSpace c then Some (m, stack)
      else if (c =? 93)%N then closeArray stack
      else beginValue c stack
  | MKeyOrEnd =>
      if isSpace c then Some (m, stack)
      else if (c =? 125)%N then closeObject stack
      else if (c =? 34)%N then Some (MString true [] SPlain, stack)
      else None
  | MKey =>
      if isSpace c then Some (m, stack)
      else if (c =? 34)%N then Some (MString true [] SPlain, stack)
      else None
  | MColon =>
      if isSpace c then Some (m, stack)
      else if (c =? 58)%N then Some (MValue, stack)
      else None
  | MAfter =>
      if isSpace c then Some (m, stack)
      else if (c =? 44)%N then
        match stack with
        | FArray _ :: _ => Some (MValue, stack)
        | FObject _ None :: _ => Some (MKey, stack)
        | _ => None
        end
      else if (c =? 93)%N then closeArray stack
      else if (c =? 125)%N then closeObject stack
      else None
  | MDone _ => if isSpace c then Some (m, stack) else None
  | MString isKey items s => stepString isKey items s c stack
  | MLiteral rest v =>
      match rest with
      | String r rest' =>
          if (Ascii.N_of_ascii r =? c)%N then
            match rest' with
            | EmptyString => reduce v stack
            | _ => Some (MLiteral rest' v, stack)
            end
          else None
      | EmptyString => None
      end
  | MNumber _ _ => None
  end.

Definition step (st : pstate) (c : N) : option pstate :=
  let '(m, stack) := st in
  match m with
  | MNumber n literal =>
      match stepNumber n c with
      | Some n' => Some (MNumber n' (literal +:+ byte c), stack)
      | None =>
          if numberComplete n then
            match reduce (Number literal) stack with
            | Some (m', stack') => stepOutside m' c stack'
            | None => None
            end
          else None
      end
  | _ => stepOutside m c stack
  end.

Fixpoint run (st : pstate) (data : string) : option pstate :=
  match data with
  | EmptyString => Some st
  | String c data =>
      match step st (Ascii.N_of_ascii c) with
      | Some st' => run st' data
      | None => None
      end
  end.

(** The value [data] denotes, or [None] on a syntax error. *)
Definition parse (data : string) : option value :=
  match run (MValue, []) data with
  | Some (MDone v, []) => Some v
  | Some (MNumber n literal, []) =>
      if numberComplete n then Some (Number literal) else None
  | _ => None
  end.

(** Case folding of a key: ASCII letters to upper case, and the two
    other characters that fold to ASCII letters (U+212A to K, U+017F to S). *)
Fixpoint foldName (key : string) : string :=
  match key with
  | EmptyString => ""
  | String c rest =>
      let n := Ascii.N_of_ascii c in
      let other :=
        (if (97 <=? n) && (n <=? 122) then byte (n - 32) else byte n)%N
        +:+ foldName rest in
      match rest with
      | String c2 rest2 =>
          let n2 := Ascii.N_of_ascii c2 in
          if ((n =? 197) && (n2 =? 191))%N then "S" +:+ foldName rest2
          else match rest2 with
               | String c3 rest3 =>
                   if ((n =? 226) && (n2 =? 132) && (Ascii.N_of_ascii c3 =? 170))%N
                   then "K" +:+ foldName rest3
                   else other
               | EmptyString => other
               end
      | EmptyString => other
      end
  end.

Definition isTokenField (key : string) : bool :=
  String.eqb (foldName key) "YOUCHATTOKEN".

(** Decoding the members of an object into the token: the pair is
    (an error was recorded, the field's value so far). *)
Definition decodeMember (acc : bool * string) (member : string * value)
  : bool * string :=
  if isTokenField member.1 then
    match member.2 with
    | Str s => (acc.1, s)
    | Null => acc
    | _ => (true, acc.2)
    end
  else acc.

(** [json.Unmarshal(data, &token)] on a zero [token]. *)
Definition unmarshalToken (data : string) : bool * YouChatResponse.t :=
  match parse data with
  | None => (true, YouChatResponse.mk "")
  | Some (Object members) =>
      let '(err, tok) := foldl decodeMember (false, "") members in
      (err, YouChatResponse.mk tok)
  | Some Null => (false, YouChatResponse.mk "")
  | Some _ => (true, YouChatResponse.mk "")
  end.

Definition hexChar (n : N) : string :=
  (if n <? 10 then byte (48 + n) else byte (87 + n))%N.

(** The bytes the encoder looks at after the first byte of a sequence. *)
Definition lookahead (s : string) : list sitem :=
  match s with
  | String a (String b (String c _)) =>
      [SByte (Ascii.N_of_ascii a); SByte (Ascii.N_of_ascii b);
       SByte (Ascii.N_of_ascii c)]
  | String a (String b EmptyString) =>
      [SByte (Ascii.N_of_ascii a); SByte (Ascii.N_of_ascii b)]
  | String a EmptyString => [SByte (Ascii.N_of_ascii a)]
  | EmptyString => []
  end.

(** U+2028 and U+2029 are the sequences E2 80 A8 and E2 80 A9. *)
Definition lineSeparator (b0 : N) (rest : string) : option N :=
  match rest with
  | String b1 (String b2 _) =>
      let n2 := Ascii.N_of_ascii b2 in
      (if (b0 =? 226) && (Ascii.N_of_ascii b1 =? 128)
          && ((n2 =? 168) || (n2 =? 169))
       then Some (n2 - 160) else None)%N
  | _ => None
  end.

(** The encoder's string escaping (with HTML escaping on, as
    [json.Marshal] has it).  A byte above 127 that does not start a
    well-formed UTF-8 sequence is written as the escape of U+FFFD;
    U+2028 and U+2029 are escaped; every other sequence is copied.
    [pending] counts the bytes still to pass of a sequence already
    examined, which are copied when [keep] is set. *)
Fixpoint escapeFrom (pending : nat) (keep : bool) (s : string) : string :=
  match s with
  | EmptyString => ""
  | String c rest =>
      let n := Ascii.N_of_ascii c in
      match pending with
      | S pending' =>
          (if keep then byte n else "") +:+ escapeFrom pending' keep rest
      | O =>
          (if (n =? 34) || (n =? 92) then
             byte 92 +:+ byte n +:+ escapeFrom O true rest
           else if n =? 8 then byte 92 +:+ "b" +:+ escapeFrom O true rest
           else if n =? 12 then byte 92 +:+ "f" +:+ escapeFrom O true rest
           else if n =? 10 then byte 92 +:+ "n" +:+ escapeFrom O true rest
           else if n =? 13 then byte 92 +:+ "r" +:+ escapeFrom O true rest
           else if n =? 9 then byte 92 +:+ "t" +:+ escapeFrom O true rest
           else if (n <? 32) || (n =? 60) || (n =? 62) || (n =? 38) then
             byte 92 +:+ "u00" +:+ hexChar (n / 16) +:+ hexChar (n mod 16)
             +:+ escapeFrom O true rest
           else if n <? 128 then byte n +:+ escapeFrom O true rest
           else
             match continuation n (lookahead rest) with
             | None => byte 92 +:+ "ufffd" +:+ escapeFrom O true rest
             | Some k =>
                 match lineSeparator n rest with
                 | Some d =>
                     byte 92 +:+ "u202" +:+ hexChar d +:+ escapeFrom 2 false rest
                 | None => byte n +:+ escapeFrom k true rest
                 end
             end)%N
      end
  end.

Definition escape (s : string) : string := escapeFrom O true s.

Definition quote (s : string) : string := byte 34 +:+ escape s +:+ byte 34.

Definition keyLe (a b : string * string) : Prop := Is_true (String.leb a.1 b.1).

#[local] Instance keyLe_dec a b : Decision (keyLe a b) :=
  Is_true_dec (String.leb a.1 b.1).

(** A map is encoded with its keys sorted. *)
Definition marshalMap (m : gmap string string) : string :=
  "{" +:+ Join ((fun kv => quote kv.1 +:+ ":" +:+ quote kv.2)
                  <$> merge_sort keyLe (map_to_list m)) "," +:+ "}".

(** [json.Marshal(chatHistory)]; the empty history is the nil slice. *)
Definition marshalHistory (chatHistory : list (gmap string string)) : string :=
  match chatHistory with
  | [] => "null"
  | _ => "[" +:+ Join (marshalMap <$> chatHistory) "," +:+ "]"
  end.

(** [inner] inside [n] pairs of brackets. *)
Fixpoint brackets (n : nat) (inner : string) : string :=
  match n with
  | O => inner
  | S n' => "[" +:+ brackets n' inner +:+ "]"
  end.

End Json.

(** A runtime to run the handlers on: the reference codec, a clock that
    advances by one second per reading, and an upstream that answers
    every request with [response]. *)
Definition refEnv (response : UpstreamResult) : Env :=
  mkEnv Json.unmarshalToken Json.marshalHistory
        (fun n => 1700000000 + Z.of_nat n) (fun _ => response).

(** The data line that carries the token [text] (plain ASCII text). *)
Definition tokenData (text : string) : string :=
  dataPrefix +:+ "{" +:+ doubleQuote +:+ "youChatToken" +:+ doubleQuote +:+ ":"
  +:+ doubleQuote +:+ text +:+ doubleQuote +:+ "}".

(** ** Vocabulary of the statements *)

(** The history record {question, answer}. *)
Definition historyRecord (question answer : string) : gmap string string :=
  <["answer" := answer]> (<["question" := question]> ∅).

(** [url.Values.Get]: the first value added under [key]. *)
Definition QueryGet (q : list (string * string)) (key : string) : option string :=
  (list_to_map q : gmap string string) !! key.

(** The data line [data] is well formed and carries the token [text]. *)
Definition WellFormed (E : Env) (data text : string) : Prop :=
  HasPrefix data dataPrefix = true /\
  jsonUnmarshal E (TrimPrefix data dataPrefix) = (false, YouChatResponse.mk text).

(** The data line [data] is malformed: it lacks the prefix, or what
    follows the prefix does not decode. *)
Definition Malformed (E : Env) (data : string) : Prop :=
  HasPrefix data dataPrefix = false \/
  (jsonUnmarshal E (TrimPrefix data dataPrefix)).1 = true.

(** [Yields E lines tokens]: the stream [lines] consists of well-formed
    token events, carrying [tokens] in this order, among lines that are
    not token-event markers. *)
Inductive Yields (E : Env) : list string -> list string -> Prop :=
  | Yields_end : Yields E [] []
  | Yields_other line lines tokens :
      HasPrefix line tokenEvent = false ->
      Yields E lines tokens ->
      Yields E (line :: lines) tokens
  | Yields_token event data text lines tokens :
      HasPrefix event tokenEvent = true ->
      WellFormed E data text ->
      Yields E lines tokens ->
      Yields E (event :: data :: lines) (text :: tokens).

(** [Paired lines]: every token-event marker of [lines] that the decoder
    meets is followed by a line, so that the decoder is between events
    when [lines] ends. *)
Inductive Paired : list string -> Prop :=
  | Paired_end : Paired []
  | Paired_other line lines :
      HasPrefix line tokenEvent = false -> Paired lines -> Paired (line :: lines)
  | Paired_event event data lines :
      HasPrefix event tokenEvent = true -> Paired lines ->
      Paired (event :: data :: lines).

(** The chunk [chunk] carries [text] as the delta of its only choice. *)
Definition Carries (chunk : OpenAIStreamResponse.t) (text : string) : Prop :=
  OpenAIStreamResponse.Object chunk = "chat.completion.chunk" /\
  OpenAIStreamResponse.Choices chunk = [Choice.mk (Delta.mk text) 0 ""].

(** The chunks among what was written. *)
Definition chunksOf (body : list Payload) : list OpenAIStreamResponse.t :=
  omap (fun p => match p with PChunk c => Some c | _ => None end) body.

Definition isPanicked (o : Outcome) : bool :=
  match o with Panicked _ _ => true | Returned _ => false end.

(** The tokens' text, concatenated in order. *)
Definition concatTokens (tokens : list string) : string :=
  foldr String.append "" tokens.

(** What has been written to the client in state [st]. *)
Definition bodyOf (st : St) : list Payload := ResponseWriter.Body (w st).

(** The state after the chunk for [data] has been written. *)
Definition emitChunk (E : Env) (data : string) (st : St) : St :=
  let token := (jsonUnmarshal E (TrimPrefix data dataPrefix)).2 in
  Write (PChunk (streamChunk E token st).1) (streamChunk E token st).2.

(** An upstream request to run the response handlers on. *)
Definition plainRequest : YouRequest.t :=
  YouRequest.mk "GET" "https://you.com/api/streamingSearch" [] youHeaders.

(** A body with a token, an undecodable record and another token. *)
Definition brokenStream : list string :=
  [ tokenEvent; tokenData "Hel";
    tokenEvent; dataPrefix +:+ "{oops";
    tokenEvent; tokenData "lo!" ].

(** A body with two token events between other events. *)
Definition helloStream : list string :=
  [ "event: youChatUpdate"; "data: {}"; "";
    tokenEvent; tokenData "Hel"; "";
    tokenEvent; tokenData "lo!"; "";
    "event: done"; "data: I'm Mr. Meeseeks. Look at me." ].

(** One token event, then a marker and the end of the stream. *)
Definition truncatedStream : list string :=
  [ tokenEvent; tokenData "Hel"; tokenEvent ].

(** A line that is itself a token object but lacks the data prefix. *)
Definition unprefixedToken : string :=
  "{" +:+ doubleQuote +:+ "youChatToken" +:+ doubleQuote +:+ ":"
  +:+ doubleQuote +:+ "x" +:+ doubleQuote +:+ "}".

(** The state after the three CORS headers of the chat path are set. *)
Definition withCORS (st : St) : St :=
  HeaderSet "Access-Control-Allow-Headers" "*"
    (HeaderSet "Access-Control-Allow-Methods" "GET, POST, OPTIONS"
       (HeaderSet "Access-Control-Allow-Origin" "*" st)).

(** The upstream request the handler builds. *)
Definition upstreamRequest (E : Env) (openAIReq : OpenAIRequest.t)
    (authHeader : string) (final : Message.t) : YouRequest.t :=
  YouRequest.mk "GET" "https://you.com/api/streamingSearch"
    (buildQuery E openAIReq (Message.Content final)
       (buildChatHistory (OpenAIRequest.Messages openAIReq)))
    (HeaderAdd "Cookie"
       (Join (cookieStrings (getCookies (TrimPrefix authHeader "Bearer "))) ";")
       youHeaders).

Arguments mapModelName : simpl never.
Arguments reverseMapModelName : simpl never.

(** The response headers in state [st]. *)
Definition headerOf (st : St) : gmap string string := ResponseWriter.Header (w st).

(** The status code written so far in state [st]. *)
Definition codeOf (st : St) : option Z := ResponseWriter.Code (w st).

(** The delta text of a chunk: the content of its choices, in order. *)
Definition chunkText (chunk : OpenAIStreamResponse.t) : string :=
  concatTokens
    ((fun choice => Delta.Content (Choice.Delta choice))
       <$> OpenAIStreamResponse.Choices chunk).

(** The content of a completion: the content of its choices, in order. *)
Definition completionText (resp : OpenAIResponse.t) : string :=
  concatTokens
    ((fun choice => Message.Content (OpenAIChoice.Message choice))
       <$> OpenAIResponse.Choices resp).

(** Whether the message has the role the projection singles out. *)
Definition isAssistant (msg : Message.t) : bool :=
  String.eqb (Message.Role msg) "assistant".

(** The keys the response handlers and [http.Error] write or delete. *)
Definition handlerKeys : list string :=
  [ "Content-Type"; "X-Content-Type-Options"; "Content-Length";
    "Cache-Control"; "Connection" ].

(** The decoded body of a request that passes the routing, the preflight
    check and the authorization check of the chat path; [None] for every
    other request. *)
Definition chatRequest (r : Request.t) : option OpenAIRequest.t :=
  if isChatPath (Request.Path r)
     && negb (String.eqb (Request.Method r) "OPTIONS")
     && HasPrefix (Request.Authorization r) "Bearer "
  then Request.Body r
  else None.

(** [n] bytes of filling. *)
Fixpoint filler (n : nat) : string :=
  match n with
  | O => EmptyString
  | S n' => String (Ascii.ascii_of_nat 120) (filler n')
  end.

(** Two token events with a line of some 70 000 bytes between them (a
    search-results event), well inside the 1 MiB of the buffering
    scanner and beyond the 64 KiB of the streaming one. *)
Definition longLineStream : list string :=
  [ tokenEvent; tokenData "Hel";
    "event: youChatSerpResults"; dataPrefix +:+ filler (70 * 1000);
    tokenEvent; tokenData "lo!" ].

(** The runtime [E] with the upstream answering [response]. *)
Definition setResponse (E : Env) (response : UpstreamResult) : Env :=
  mkEnv (jsonUnmarshal E) (jsonMarshal E) (unixNow E) (fun _ => response).

(** A body with events of other kinds only, and no token. *)
Definition updateStream : list string :=
  [ "event: youChatUpdate"; dataPrefix +:+ "{}"; "";
    "event: done"; dataPrefix +:+ "I'm Mr. Meeseeks. Look at me." ].

(** ** Go's [strings] *)

Lemma HasPrefix_app (p s : string) : HasPrefix (p +:+ s) p = true.
Proof.
  induction p as [|c p IH]; simpl; [done|].
  by rewrite Ascii.eqb_refl.
Qed.

Lemma dropBytes_app (p s : string) : dropBytes (String.length p) (p +:+ s) = s.
Proof. induction p as [|c p IH]; simpl; [by destruct s|done]. Qed.

Lemma TrimPrefix_app (p s : string) : TrimPrefix (p +:+ s) p = s.
Proof. unfold TrimPrefix. by rewrite HasPrefix_app, dropBytes_app. Qed.

Lemma HasPrefix_split (s p : string) :
  HasPrefix s p = true -> s = p +:+ TrimPrefix s p.
Proof.
  unfold TrimPrefix. intros H. rewrite H. revert s H.
  induction p as [|c p IH]; intros s H; simpl in *; [by destruct s|].
  destruct s as [|d s]; [done|].
  destruct (Ascii.eqb_spec d c) as [->|]; [|done].
  change (String c s = String c (p +:+ dropBytes (String.length p) s)).
  f_equal. by apply IH.
Qed.

Lemma HasPrefix_empty (p : string) : p <> "" -> HasPrefix "" p = false.
Proof. by destruct p. Qed.

(** ** Model name translation *)

Lemma modelTable_keys_NoDup : NoDup (modelTable.*1).
Proof. apply (bool_decide_unpack _). by vm_compute. Qed.

Lemma modelTable_values_NoDup : NoDup (modelTable.*2).
Proof. apply (bool_decide_unpack _). by vm_compute. Qed.

Lemma modelMap_lookup (k v : string) :
  modelMap !! k = Some v <-> (k, v) ∈ modelTable.
Proof.
  unfold modelMap. symmetry.
  apply elem_of_list_to_map, modelTable_keys_NoDup.
Qed.

(** The loop leaves a value alone when no visited entry carries it. *)
Lemma reverse_loop_miss (order : list (string * string)) (acc : gmap string string) v :
  v ∉ order.*2 ->
  foldl (fun reverse kv => <[kv.2 := kv.1]> reverse) acc order !! v = acc !! v.
Proof.
  revert acc. induction order as [|[k0 v0] order IH]; intros acc Hv; simpl; [done|].
  rewrite fmap_cons, not_elem_of_cons in Hv. destruct Hv as [Hne Hv].
  rewrite IH by done. by rewrite lookup_insert_ne.
Qed.

(** With pairwise distinct values, the loop maps every visited value to
    its key. *)
Lemma reverse_loop_hit (order : list (string * string)) (acc : gmap string string) k v :
  NoDup (order.*2) -> (k, v) ∈ order ->
  foldl (fun reverse kv => <[kv.2 := kv.1]> reverse) acc order !! v = Some k.
Proof.
  revert acc. induction order as [|[k0 v0] order IH]; intros acc Hnd Hin; simpl.
  - by apply elem_of_nil in Hin.
  - rewrite fmap_cons in Hnd. apply NoDup_cons in Hnd as [Hfresh Hnd].
    apply elem_of_cons in Hin as [Heq|Hin].
    + injection Heq as -> ->. simpl in Hfresh.
      rewrite reverse_loop_miss by done. by rewrite lookup_insert_eq.
    + by apply IH.
Qed.

Lemma reverseOver_lookup (order : list (string * string)) k v :
  NoDup (order.*2) -> (k, v) ∈ order -> reverseOver order !! v = Some k.
Proof. apply reverse_loop_hit. Qed.

Lemma reverseOver_miss (order : list (string * string)) v :
  v ∉ order.*2 -> reverseOver order !! v = None.
Proof. intros H. unfold reverseOver. by rewrite reverse_loop_miss. Qed.

(** An iteration order of the map built from a literal without repeated
    keys is a permutation of the literal's entries. *)
Lemma order_of_literal (table order : list (string * string)) :
  NoDup (table.*1) ->
  order ≡ₚ map_to_list (list_to_map table : gmap string string) ->
  order ≡ₚ table.
Proof. intros Hnd Hp. rewrite Hp. by apply map_to_list_to_map. Qed.

Lemma modelMap_order_values (order : list (string * string)) :
  order ≡ₚ map_to_list modelMap -> order ≡ₚ modelTable.
Proof. exact (order_of_literal modelTable order modelTable_keys_NoDup). Qed.

(** Whatever order [range] visits [modelMap] in, [getReverseModelMap]
    builds the same table. *)
Lemma getReverseModelMap_any_order (order : list (string * string)) :
  order ≡ₚ map_to_list modelMap -> reverseOver order = getReverseModelMap.
Proof.
  intros Hperm. unfold getReverseModelMap. apply map_eq. intros v.
  assert (Hnd : forall l, l ≡ₚ map_to_list modelMap -> NoDup (l.*2)).
  { intros l Hl. apply modelMap_order_values in Hl.
    rewrite Hl. apply modelTable_values_NoDup. }
  destruct (decide (v ∈ order.*2)) as [Hin|Hout].
  - apply list_elem_of_fmap in Hin as [[k v'] [-> Hin]]. simpl.
    rewrite (reverseOver_lookup order k v') by auto.
    symmetry. apply reverseOver_lookup; [auto|]. by rewrite <- Hperm.
  - rewrite reverseOver_miss by done.
    symmetry. apply reverseOver_miss. by rewrite <- Hperm.
Qed.

Lemma getReverseModelMap_lookup (k v : string) :
  modelMap !! k = Some v -> getReverseModelMap !! v = Some k.
Proof.
  intros H. apply reverseOver_lookup.
  - rewrite (modelMap_order_values (map_to_list modelMap)) by done.
    apply modelTable_values_NoDup.
  - by apply elem_of_map_to_list.
Qed.

(** The reverse table has exactly the values of the forward table. *)
Lemma getReverseModelMap_None (v : string) :
  getReverseModelMap !! v = None <-> forall k, modelMap !! k <> Some v.
Proof.
  split.
  - intros Hnone k Hk. apply getReverseModelMap_lookup in Hk. congruence.
  - intros Hno. apply reverseOver_miss. intros Hin.
    apply list_elem_of_fmap in Hin as [[k v'] [-> Hin]].
    apply elem_of_map_to_list in Hin. by apply (Hno k).
Qed.

(** C5. Round trip of the model mapping: for every key [k] of the
    forward table [modelMap], translating [k] to the upstream name and
    back gives [k] again; no entry loses its reverse mapping to a
    collision of values. *)
Theorem model_mapping_round_trip (k : string) :
  is_Some (modelMap !! k) -> reverseMapModelName (mapModelName k) = k.
Proof.
  intros [v Hv]. unfold mapModelName, reverseMapModelName.
  rewrite Hv. by rewrite (getReverseModelMap_lookup k v Hv).
Qed.

Lemma model_mapping_round_trip_witness :
  is_Some (modelMap !! "gpt-4o") /\
  reverseMapModelName (mapModelName "gpt-4o") = "gpt-4o".
Proof.
  assert (H : is_Some (modelMap !! "gpt-4o")) by (exists "gpt_4o"; reflexivity).
  split; [exact H|]. exact (model_mapping_round_trip "gpt-4o" H).
Defined.

(** C6. Totality with silent defaults: [mapModelName] and
    [reverseMapModelName] are functions defined on every string; a client
    model that is not a key of the forward table is sent to the fixed
    upstream default "deepseek_v3", and an upstream model that is not a
    key of the reverse table is sent to the fixed client default
    "deepseek-chat". *)
Theorem model_mapping_defaults (clientModel youModel : string) :
  modelMap !! clientModel = None ->
  getReverseModelMap !! youModel = None ->
  mapModelName clientModel = "deepseek_v3" /\
  reverseMapModelName youModel = "deepseek-chat".
Proof.
  intros Hc Hy. split.
  - unfold mapModelName. rewrite Hc. reflexivity.
  - unfold reverseMapModelName. cbv zeta. rewrite Hy. reflexivity.
Qed.

Lemma model_mapping_defaults_witness :
  mapModelName "gpt-5" = "deepseek_v3" /\
  reverseMapModelName "gpt_5" = "deepseek-chat".
Proof.
  apply (model_mapping_defaults "gpt-5" "gpt_5").
  - vm_compute. reflexivity.
  - vm_compute. reflexivity.
Defined.

(** ** History projection *)

Lemma append_loop_map {A B} (f : A -> B) (l : list A) (acc : list B) :
  foldl (fun out x => out ++ [f x]) acc l = acc ++ (f <$> l).
Proof.
  revert acc. induction l as [|x l IH]; intros acc; simpl.
  - by rewrite app_nil_r.
  - rewrite IH. by rewrite <- app_assoc.
Qed.

(** The loop appends one record per message, in order. *)
Lemma buildChatHistory_map (messages : list Message.t) :
  buildChatHistory messages = chatMsgOf <$> messages.
Proof. unfold buildChatHistory. by rewrite append_loop_map. Qed.

Lemma question_ne_answer : "question" <> "answer".
Proof. discriminate. Qed.

Lemma historyRecord_question (question answer : string) :
  historyRecord question answer !! "question" = Some question.
Proof.
  unfold historyRecord.
  rewrite lookup_insert_ne by (symmetry; exact question_ne_answer).
  apply lookup_insert_eq.
Qed.

Lemma historyRecord_answer (question answer : string) :
  historyRecord question answer !! "answer" = Some answer.
Proof. unfold historyRecord. apply lookup_insert_eq. Qed.

(** The record built for a message, by role. *)
Lemma chatMsgOf_record (msg : Message.t) :
  chatMsgOf msg =
    if String.eqb (Message.Role msg) "assistant"
    then historyRecord "" (Message.Content msg)
    else historyRecord (Message.Content msg) "".
Proof.
  unfold chatMsgOf, historyRecord.
  destruct (String.eqb (Message.Role msg) "assistant"); [|reflexivity].
  rewrite (insert_insert_ne _ "question" "answer") by exact question_ne_answer.
  rewrite !insert_insert_eq. reflexivity.
Qed.

Lemma nonEmptyField_question (question answer : string) :
  nonEmptyField (historyRecord question answer) "question"
  = negb (String.eqb question "").
Proof. unfold nonEmptyField. by rewrite historyRecord_question. Qed.

Lemma nonEmptyField_answer (question answer : string) :
  nonEmptyField (historyRecord question answer) "answer"
  = negb (String.eqb answer "").
Proof. unfold nonEmptyField. by rewrite historyRecord_answer. Qed.

(** C2, as the code has it.  For every message sequence of length N the
    history has length N; its i-th record comes from the i-th message; an
    assistant message gives {question: empty, answer: content} and any
    other role gives {question: content, answer: empty}.  The field
    chosen by the role holds the content and the other field is empty, so
    exactly one of the two is non-empty when the content is non-empty,
    and both are empty when the content is empty. *)
Theorem history_projection_shape (messages : list Message.t) :
  length (buildChatHistory messages) = length messages /\
  forall (i : nat) (msg : Message.t),
    messages !! i = Some msg ->
    exists record : gmap string string,
      buildChatHistory messages !! i = Some record /\
      record = (if String.eqb (Message.Role msg) "assistant"
                then historyRecord "" (Message.Content msg)
                else historyRecord (Message.Content msg) "") /\
      nonEmptyField record "answer"
        = String.eqb (Message.Role msg) "assistant"
          && negb (String.eqb (Message.Content msg) "") /\
      nonEmptyField record "question"
        = negb (String.eqb (Message.Role msg) "assistant")
          && negb (String.eqb (Message.Content msg) "") /\
      xorb (nonEmptyField record "question") (nonEmptyField record "answer")
        = negb (String.eqb (Message.Content msg) "").
Proof.
  rewrite buildChatHistory_map. split; [apply length_fmap|].
  intros i msg Hi. exists (chatMsgOf msg).
  split; [by rewrite list_lookup_fmap, Hi|].
  split; [apply chatMsgOf_record|].
  rewrite chatMsgOf_record.
  destruct (String.eqb (Message.Role msg) "assistant");
    rewrite nonEmptyField_question, nonEmptyField_answer; simpl;
    by destruct (String.eqb (Message.Content msg) "").
Qed.

(** C2 as stated fails: a message with empty content gives a record in
    which neither field is non-empty. *)
Lemma history_projection_empty_content :
  buildChatHistory [Message.mk "user" ""] = [historyRecord "" ""] /\
  nonEmptyField (historyRecord "" "") "question" = false /\
  nonEmptyField (historyRecord "" "") "answer" = false.
Proof. vm_compute. repeat split; reflexivity. Qed.

(** ** The decode loops *)

Lemma append_empty_r (a : string) : a +:+ "" = a.
Proof. induction a as [|c a IH]; [done|]. change (String c (a +:+ "") = String c a). by rewrite IH. Qed.

Lemma append_assoc (a b c : string) : (a +:+ b) +:+ c = a +:+ (b +:+ c).
Proof.
  induction a as [|x a IH]; [done|].
  change (String x ((a +:+ b) +:+ c) = String x (a +:+ (b +:+ c))).
  by rewrite IH.
Qed.

Section Loops.

Variable E : Env.

(** *** One iteration of the buffering loop *)

Lemma scanNonStreaming_other line unread full :
  HasPrefix line tokenEvent = false ->
  scanNonStreaming E (line :: unread) full = scanNonStreaming E unread full.
Proof. intros H. cbn [scanNonStreaming]. by rewrite H. Qed.

Lemma scanNonStreaming_token event data text unread full :
  HasPrefix event tokenEvent = true ->
  WellFormed E data text ->
  scanNonStreaming E (event :: data :: unread) full
  = scanNonStreaming E unread (full +:+ text).
Proof.
  intros Hev [Hp Hd]. cbn [scanNonStreaming scanText scanRest].
  by rewrite Hev, Hp, Hd.
Qed.

Lemma scanNonStreaming_malformed event data unread full :
  HasPrefix event tokenEvent = true ->
  Malformed E data ->
  scanNonStreaming E (event :: data :: unread) full
  = scanNonStreaming E unread full.
Proof.
  intros Hev Hbad. cbn [scanNonStreaming scanText scanRest]. rewrite Hev.
  destruct (HasPrefix data dataPrefix) eqn:Hp; cbn [negb]; [|reflexivity].
  destruct Hbad as [Hbad|Hbad]; [congruence|].
  destruct (jsonUnmarshal E (TrimPrefix data dataPrefix)) as [err token].
  cbn [fst] in Hbad. by rewrite Hbad.
Qed.

(** The stream ends after a marker: the inner [Scan] fails, [Text] is
    empty, and nothing is appended. *)
Lemma scanNonStreaming_truncated event full :
  HasPrefix event tokenEvent = true ->
  scanNonStreaming E [event] full = full.
Proof. intros Hev. cbn [scanNonStreaming scanText scanRest]. by rewrite Hev. Qed.

(** The buffering loop over a stream of well-formed token events. *)
Lemma scanNonStreaming_yields lines tokens full :
  Yields E lines tokens ->
  scanNonStreaming E lines full = full +:+ concatTokens tokens.
Proof.
  intros HY. revert full.
  induction HY as [|line lines tokens Hline _ IH
                   |event data text lines tokens Hev Hwf _ IH]; intros full.
  - by rewrite append_empty_r.
  - by rewrite scanNonStreaming_other.
  - rewrite (scanNonStreaming_token event data text) by done.
    rewrite IH. simpl. by rewrite append_assoc.
Qed.

(** A prefix that ends between events can be decoded on its own. *)
Lemma scanNonStreaming_app pre rest full :
  Paired pre ->
  scanNonStreaming E (pre ++ rest) full
  = scanNonStreaming E rest (scanNonStreaming E pre full).
Proof.
  intros HP. revert full.
  induction HP as [|line lines Hline _ IH|event data lines Hev _ IH];
    intros full.
  - done.
  - rewrite <- app_comm_cons. by rewrite !scanNonStreaming_other.
  - rewrite <- !app_comm_cons.
    cbn [scanNonStreaming scanText scanRest]. rewrite Hev.
    destruct (HasPrefix data dataPrefix); cbn [negb]; [|apply IH].
    destruct (jsonUnmarshal E (TrimPrefix data dataPrefix)) as [[] token];
      apply IH.
Qed.

(** *** One iteration of the streaming loop *)

Lemma w_timeNowUnix st : w (timeNowUnix E st).2 = w st.
Proof. done. Qed.

Lemma w_streamChunk token st : w (streamChunk E token st).2 = w st.
Proof. done. Qed.

Lemma sent_streamChunk token st : sent (streamChunk E token st).2 = sent st.
Proof. done. Qed.

Lemma streamChunk_carries token st :
  Carries (streamChunk E token st).1 (YouChatResponse.YouChatToken token).
Proof. done. Qed.

Lemma bodyOf_Write p st : bodyOf (Write p st) = bodyOf st ++ [p].
Proof. done. Qed.

Lemma sent_Write p st : sent (Write p st) = sent st.
Proof. done. Qed.

Lemma scanStreaming_other line unread st :
  HasPrefix line tokenEvent = false ->
  scanStreaming E (line :: unread) st = scanStreaming E unread st.
Proof. intros H. cbn [scanStreaming]. by rewrite H. Qed.

(** A marker always leads to a chunk, built from whatever follows. *)
Lemma scanStreaming_event event unread st :
  HasPrefix event tokenEvent = true ->
  scanStreaming E (event :: unread) st
  = scanStreaming E (scanRest unread) (emitChunk E (scanText unread) st).
Proof.
  intros Hev. cbn [scanStreaming]. rewrite Hev. unfold emitChunk.
  destruct (jsonUnmarshal E (TrimPrefix (scanText unread) dataPrefix))
    as [err token].
  cbn [snd]. destruct (streamChunk E token st) as [openAIResp st'].
  reflexivity.
Qed.

Lemma bodyOf_emitChunk data st :
  exists chunk,
    bodyOf (emitChunk E data st) = bodyOf st ++ [PChunk chunk] /\
    Carries chunk
      (YouChatResponse.YouChatToken
         (jsonUnmarshal E (TrimPrefix data dataPrefix)).2).
Proof.
  unfold emitChunk. eexists. split.
  - rewrite bodyOf_Write. unfold bodyOf. by rewrite w_streamChunk.
  - apply streamChunk_carries.
Qed.

Lemma scanStreaming_app pre rest st :
  Paired pre ->
  scanStreaming E (pre ++ rest) st
  = scanStreaming E rest (scanStreaming E pre st).
Proof.
  intros HP. revert st.
  induction HP as [|line lines Hline _ IH|event data lines Hev _ IH];
    intros st.
  - done.
  - rewrite <- app_comm_cons. by rewrite !scanStreaming_other.
  - rewrite <- !app_comm_cons. rewrite !scanStreaming_event by done.
    apply IH.
Qed.

(** The streaming loop over a stream of well-formed token events: one
    chunk per token, in order. *)
Lemma scanStreaming_yields lines tokens st :
  Yields E lines tokens ->
  exists chunks,
    bodyOf (scanStreaming E lines st) = bodyOf st ++ (PChunk <$> chunks) /\
    Forall2 Carries chunks tokens.
Proof.
  intros HY. revert st.
  induction HY as [|line lines tokens Hline _ IH
                   |event data text lines tokens Hev [Hp Hd] _ IH]; intros st.
  - exists []. split; [by rewrite app_nil_r|constructor].
  - rewrite scanStreaming_other by done. apply IH.
  - rewrite scanStreaming_event by done. cbn [scanText scanRest].
    destruct (IH (emitChunk E data st)) as (chunks & Hbody & Hall).
    destruct (bodyOf_emitChunk data st) as (chunk & Hchunk & Hcarries).
    rewrite Hd in Hcarries. simpl in Hcarries.
    exists (chunk :: chunks). split.
    + rewrite Hbody, Hchunk. rewrite <- app_assoc. done.
    + by constructor.
Qed.

(** The loops only write to the client. *)
Lemma sent_scanStreaming lines st : sent (scanStreaming E lines st) = sent st.
Proof.
  remember (length lines) as n eqn:Hn. revert lines st Hn.
  induction n as [n IH] using lt_wf_ind. intros lines st ->.
  destruct lines as [|line unread]; [done|].
  destruct (HasPrefix line tokenEvent) eqn:Hev.
  - rewrite scanStreaming_event by done.
    rewrite (IH (length (scanRest unread))); [done| |done].
    destruct unread; simpl; lia.
  - rewrite scanStreaming_other by done.
    rewrite (IH (length unread)); [done|simpl; lia|done].
Qed.

End Loops.

(** ** The two assemblers *)

(** The buffering assembler on a body that was read to its end: one
    completion is written, carrying what the scan loop collected. *)
Lemma handleNonStreamingResponse_read (E : Env) youReq st lines :
  clientDo E youReq = DoResp lines false ->
  exists resp,
    bodyOf (handleNonStreamingResponse E youReq st)
      = bodyOf st ++ [PCompletion resp] /\
    OpenAIResponse.Object resp = "chat.completion" /\
    OpenAIResponse.Model resp
      = reverseMapModelName (mapModelName (originalModel st)) /\
    OpenAIResponse.Choices resp
      = [OpenAIChoice.mk
           (Message.mk "assistant" (scanNonStreaming E lines "")) 0 "stop"] /\
    sent (handleNonStreamingResponse E youReq st) = sent st ++ [youReq] /\
    originalModel (handleNonStreamingResponse E youReq st) = originalModel st.
Proof.
  intros Hdo. unfold handleNonStreamingResponse. rewrite Hdo.
  eexists. repeat split.
Qed.

(** A fresh writer ends with status 200 after a write. *)
Lemma handleNonStreamingResponse_code (E : Env) youReq st lines :
  clientDo E youReq = DoResp lines false ->
  ResponseWriter.Code (w st) = None ->
  ResponseWriter.Code (w (handleNonStreamingResponse E youReq st)) = Some StatusOK.
Proof.
  intros Hdo Hcode. unfold handleNonStreamingResponse. rewrite Hdo.
  cbn. by rewrite Hcode.
Qed.

(** C3. Token decode robustness of the buffering assembler: when the
    upstream stream is a well-formed token event, then a token-event
    marker whose data line is malformed (wrong prefix, or text that does
    not decode), then another well-formed token event, the operation is
    not aborted and the content of the completion is the text of the two
    well-formed tokens, concatenated in stream order. *)
Theorem buffering_drops_malformed_record (E : Env) youReq st
    ev1 d1 t1 ev2 bad ev3 d2 t2 :
  HasPrefix ev1 tokenEvent = true -> WellFormed E d1 t1 ->
  HasPrefix ev2 tokenEvent = true -> Malformed E bad ->
  HasPrefix ev3 tokenEvent = true -> WellFormed E d2 t2 ->
  clientDo E youReq = DoResp [ev1; d1; ev2; bad; ev3; d2] false ->
  exists resp,
    bodyOf (handleNonStreamingResponse E youReq st)
      = bodyOf st ++ [PCompletion resp] /\
    OpenAIResponse.Choices resp
      = [OpenAIChoice.mk (Message.mk "assistant" (t1 +:+ t2)) 0 "stop"].
Proof.
  intros H1 W1 H2 B H3 W2 Hdo.
  destruct (handleNonStreamingResponse_read E youReq st _ Hdo)
    as (resp & Hbody & _ & _ & Hchoices & _).
  exists resp. split; [exact Hbody|].
  rewrite Hchoices.
  rewrite (scanNonStreaming_token E ev1 d1 t1) by assumption.
  rewrite (scanNonStreaming_malformed E ev2 bad) by assumption.
  rewrite (scanNonStreaming_token E ev3 d2 t2) by assumption.
  reflexivity.
Qed.

Lemma buffering_drops_malformed_record_witness :
  exists resp,
    bodyOf (handleNonStreamingResponse (refEnv (DoResp brokenStream false))
              plainRequest (initSt "gpt-4o"))
      = bodyOf (initSt "gpt-4o") ++ [PCompletion resp] /\
    OpenAIResponse.Choices resp
      = [OpenAIChoice.mk (Message.mk "assistant" ("Hel" +:+ "lo!")) 0 "stop"].
Proof.
  apply (buffering_drops_malformed_record
           (refEnv (DoResp brokenStream false)) plainRequest (initSt "gpt-4o")
           tokenEvent (tokenData "Hel") "Hel"
           tokenEvent (dataPrefix +:+ "{oops")
           tokenEvent (tokenData "lo!") "lo!").
  - reflexivity.
  - split; vm_compute; reflexivity.
  - reflexivity.
  - right. vm_compute. reflexivity.
  - reflexivity.
  - split; vm_compute; reflexivity.
  - reflexivity.
Defined.

(** The same with a data line that lacks the prefix. *)
Example buffering_drops_unprefixed_line :
  scanNonStreaming (refEnv (DoErr ""))
    [ tokenEvent; tokenData "Hel"; tokenEvent; "oops"; tokenEvent; tokenData "lo!" ] ""
  = "Hello!".
Proof. vm_compute. reflexivity. Qed.

(** *** The buffer of the streaming scanner *)

(** A body whose lines all fit the buffer is delivered as it is. *)
Lemma streamLines_fits (lines : list string) :
  Forall (fun line => tooLong line = false) lines ->
  streamLines lines = lines.
Proof.
  remember (length lines) as n eqn:Hn. revert lines Hn.
  induction n as [n IH] using lt_wf_ind. intros lines -> Hfit.
  destruct lines as [|line rest]; [reflexivity|].
  apply Forall_cons in Hfit as [Hline Hrest].
  cbn [streamLines]. rewrite Hline.
  destruct (HasPrefix line tokenEvent).
  - destruct rest as [|data rest']; [reflexivity|].
    apply Forall_cons in Hrest as [Hdata Hrest']. rewrite Hdata.
    do 2 f_equal. apply (IH (length rest')); [simpl; lia|reflexivity|exact Hrest'].
  - f_equal. apply (IH (length rest)); [simpl; lia|reflexivity|exact Hrest].
Qed.

(** A line that is too long, met between two events, ends the delivery:
    nothing of it and nothing after it reaches the loop. *)
Lemma streamLines_stops (pre rest : list string) (line : string) :
  Paired pre ->
  Forall (fun line => tooLong line = false) pre ->
  tooLong line = true ->
  streamLines (pre ++ line :: rest) = pre.
Proof.
  intros HP. induction HP as [|other lines Hother _ IH|event data lines Hev _ IH];
    intros Hfit Hlong.
  - cbn [app streamLines]. by rewrite Hlong.
  - apply Forall_cons in Hfit as [Hline Hfit].
    rewrite <- app_comm_cons. cbn [streamLines]. rewrite Hline, Hother.
    f_equal. by apply IH.
  - apply Forall_cons in Hfit as [Hline Hfit].
    apply Forall_cons in Hfit as [Hdata Hfit].
    rewrite <- !app_comm_cons. cbn [streamLines]. rewrite Hline, Hev, Hdata.
    do 2 f_equal. by apply IH.
Qed.

(** C4, within the buffer of the streaming scanner.  When the upstream
    stream consists of exactly K token events (a marker line followed by
    a data line that carries a token), possibly among other lines, and
    every line is shorter than the 64 KiB of the scanner's buffer, the
    streaming assembler writes exactly K chunks before it returns, the
    i-th chunk carrying the text of the i-th token as the delta of its
    single choice, with an empty finish reason.  The bound is needed:
    the streaming handler does not raise the scanner's buffer as the
    buffering handler does, and a longer line ends its loop
    ([streaming_stops_at_long_line]). *)
Theorem streaming_one_chunk_per_token (E : Env) youReq st lines readErr tokens :
  clientDo E youReq = DoResp lines readErr ->
  Forall (fun line => tooLong line = false) lines ->
  Yields E lines tokens ->
  exists chunks,
    bodyOf (handleStreamingResponse E youReq st)
      = bodyOf st ++ (PChunk <$> chunks) /\
    length chunks = length tokens /\
    Forall2 Carries chunks tokens.
Proof.
  intros Hdo Hfit HY. unfold handleStreamingResponse. rewrite Hdo.
  rewrite (streamLines_fits lines Hfit).
  match goal with
  | |- context [scanStreaming E lines ?s] =>
      destruct (scanStreaming_yields E lines tokens s HY) as (chunks & Hb & Hall)
  end.
  exists chunks. split; [exact Hb|]. split; [|exact Hall].
  by apply Forall2_length in Hall.
Qed.

(** The streaming handler on a stream with a line beyond its buffer:
    whatever follows the line, it writes the chunks of the events before
    it and nothing else. *)
Lemma streaming_stops_at_long_line (E : Env) youReq st pre line rest readErr tokens :
  clientDo E youReq = DoResp (pre ++ line :: rest) readErr ->
  Forall (fun line => tooLong line = false) pre ->
  Yields E pre tokens ->
  tooLong line = true ->
  exists chunks,
    bodyOf (handleStreamingResponse E youReq st)
      = bodyOf st ++ (PChunk <$> chunks) /\
    Forall2 Carries chunks tokens.
Proof.
  intros Hdo Hfit HY Hlong. unfold handleStreamingResponse. rewrite Hdo.
  assert (HP : Paired pre).
  { clear -HY. induction HY as [| |event data text lines tokens Hev _ _ IH];
      [apply Paired_end|by apply Paired_other|by apply Paired_event]. }
  rewrite (streamLines_stops pre rest line HP Hfit Hlong).
  match goal with
  | |- context [scanStreaming E pre ?s] =>
      destruct (scanStreaming_yields E pre tokens s HY) as (chunks & Hb & Hall)
  end.
  by exists chunks.
Qed.

Lemma helloStream_yields (response : UpstreamResult) :
  Yields (refEnv response) helloStream ["Hel"; "lo!"].
Proof.
  unfold helloStream.
  do 3 (apply Yields_other; [reflexivity|]).
  apply Yields_token; [reflexivity|split; vm_compute; reflexivity|].
  apply Yields_other; [reflexivity|].
  apply Yields_token; [reflexivity|split; vm_compute; reflexivity|].
  do 3 (apply Yields_other; [reflexivity|]).
  apply Yields_end.
Defined.

Lemma streaming_one_chunk_per_token_witness :
  exists chunks,
    bodyOf (handleStreamingResponse (refEnv (DoResp helloStream false))
              plainRequest (initSt "gpt-4o"))
      = bodyOf (initSt "gpt-4o") ++ (PChunk <$> chunks) /\
    length chunks = length ["Hel"; "lo!"] /\
    Forall2 Carries chunks ["Hel"; "lo!"].
Proof.
  apply (streaming_one_chunk_per_token
           (refEnv (DoResp helloStream false)) plainRequest (initSt "gpt-4o")
           helloStream false ["Hel"; "lo!"]).
  - reflexivity.
  - unfold helloStream. repeat (constructor; [vm_compute; reflexivity|]).
    constructor.
  - apply helloStream_yields.
Defined.

(** The failing input of C4, run: the body holds two token events, the
    buffering handler answers with both tokens, and the streaming
    handler writes the first chunk only. *)
Example long_line_run :
  Yields (refEnv (DoResp longLineStream false)) longLineStream ["Hel"; "lo!"] /\
  scanNonStreaming (refEnv (DoResp longLineStream false)) longLineStream ""
    = "Hello!" /\
  (fun chunk => OpenAIStreamResponse.Choices chunk)
    <$> chunksOf (bodyOf (handleStreamingResponse
                            (refEnv (DoResp longLineStream false))
                            plainRequest (initSt "gpt-4o")))
    = [ [Choice.mk (Delta.mk "Hel") 0 ""] ].
Proof.
  split; [|split].
  - unfold longLineStream.
    apply Yields_token; [reflexivity|split; vm_compute; reflexivity|].
    do 2 (apply Yields_other; [reflexivity|]).
    apply Yields_token; [reflexivity|split; vm_compute; reflexivity|].
    apply Yields_end.
  - vm_compute. reflexivity.
  - vm_compute. reflexivity.
Qed.

(** *** A stream that ends in the middle of a token event *)

Lemma TrimPrefix_empty_data : TrimPrefix "" dataPrefix = "".
Proof. reflexivity. Qed.

(** C8. A stream that ends right after a token-event marker.  Both
    loops return, by structural recursion on the unread lines.  The
    buffering loop appends nothing for the truncated event.  The
    streaming loop does not meet the claim: it writes one more chunk,
    whose delta is whatever the decoder leaves in the token on the empty
    text. *)
Theorem truncated_event (E : Env) pre event full st :
  Paired pre ->
  HasPrefix event tokenEvent = true ->
  scanNonStreaming E (pre ++ [event]) full = scanNonStreaming E pre full /\
  exists chunk,
    bodyOf (scanStreaming E (pre ++ [event]) st)
      = bodyOf (scanStreaming E pre st) ++ [PChunk chunk] /\
    Carries chunk (YouChatResponse.YouChatToken (jsonUnmarshal E "").2).
Proof.
  intros HP Hev. split.
  - rewrite scanNonStreaming_app by done. by apply scanNonStreaming_truncated.
  - rewrite scanStreaming_app by done.
    rewrite scanStreaming_event by done. cbn [scanText scanRest scanStreaming].
    destruct (bodyOf_emitChunk E "" (scanStreaming E pre st))
      as (chunk & Hbody & Hcarries).
    exists chunk. split; [exact Hbody|].
    by rewrite TrimPrefix_empty_data in Hcarries.
Qed.

Lemma truncated_event_witness :
  scanNonStreaming (refEnv (DoResp truncatedStream false))
      ([tokenEvent; tokenData "Hel"] ++ [tokenEvent]) ""
    = scanNonStreaming (refEnv (DoResp truncatedStream false))
        [tokenEvent; tokenData "Hel"] "" /\
  exists chunk,
    bodyOf (scanStreaming (refEnv (DoResp truncatedStream false))
              ([tokenEvent; tokenData "Hel"] ++ [tokenEvent]) (initSt "gpt-4o"))
      = bodyOf (scanStreaming (refEnv (DoResp truncatedStream false))
                  [tokenEvent; tokenData "Hel"] (initSt "gpt-4o"))
        ++ [PChunk chunk] /\
    Carries chunk
      (YouChatResponse.YouChatToken
         (jsonUnmarshal (refEnv (DoResp truncatedStream false)) "").2).
Proof.
  apply (truncated_event (refEnv (DoResp truncatedStream false))
           [tokenEvent; tokenData "Hel"] tokenEvent "" (initSt "gpt-4o")).
  - apply Paired_event; [reflexivity|apply Paired_end].
  - reflexivity.
Defined.

(** The failing input of C8, run: one token was sent before the
    truncated event, the buffered answer holds that token only, and the
    streaming handler writes two chunks, the second with an empty delta. *)
Example truncated_event_run :
  scanNonStreaming (refEnv (DoResp truncatedStream false)) truncatedStream ""
    = "Hel" /\
  (fun chunk => OpenAIStreamResponse.Choices chunk)
    <$> chunksOf (bodyOf (handleStreamingResponse
                            (refEnv (DoResp truncatedStream false))
                            plainRequest (initSt "gpt-4o")))
    = [ [Choice.mk (Delta.mk "Hel") 0 ""]; [Choice.mk (Delta.mk "") 0 ""] ].
Proof. vm_compute. split; reflexivity. Qed.

(** *** A malformed record in the streaming path *)

(** C10.  A token-event marker whose data line is malformed (no data
    prefix, or text the decoder rejects) is not dropped by the streaming
    loop: it tests neither the prefix nor the decoder's error, as the
    buffering loop does, and writes exactly one chunk for the record.
    The delta of the chunk is the token the decoder leaves when applied
    to the line without a leading data prefix: the empty string when the
    decoder fills nothing, not always ([unprefixed_line_run]).  The
    buffering loop drops the record. *)
Theorem streaming_keeps_malformed_record (E : Env) pre event data rest full st :
  Paired pre ->
  HasPrefix event tokenEvent = true ->
  Malformed E data ->
  scanNonStreaming E (pre ++ event :: data :: rest) full
    = scanNonStreaming E rest (scanNonStreaming E pre full) /\
  exists chunk st1,
    scanStreaming E (pre ++ event :: data :: rest) st = scanStreaming E rest st1 /\
    bodyOf st1 = bodyOf (scanStreaming E pre st) ++ [PChunk chunk] /\
    Carries chunk
      (YouChatResponse.YouChatToken
         (jsonUnmarshal E (TrimPrefix data dataPrefix)).2).
Proof.
  intros HP Hev Hbad. split.
  - rewrite scanNonStreaming_app by done.
    by rewrite scanNonStreaming_malformed.
  - rewrite scanStreaming_app by done.
    rewrite scanStreaming_event by done. cbn [scanText scanRest].
    destruct (bodyOf_emitChunk E data (scanStreaming E pre st))
      as (chunk & Hbody & Hcarries).
    exists chunk, (emitChunk E data (scanStreaming E pre st)).
    split; [reflexivity|]. split; [exact Hbody|exact Hcarries].
Qed.

(** The reference decoder leaves the token empty on a syntax error. *)
Lemma unmarshalToken_syntax_error (data : string) :
  Json.parse data = None ->
  Json.unmarshalToken data = (true, YouChatResponse.mk "").
Proof. intros H. unfold Json.unmarshalToken. by rewrite H. Qed.

Lemma streaming_keeps_malformed_record_witness :
  scanNonStreaming (refEnv (DoErr ""))
      ([] ++ tokenEvent :: (dataPrefix +:+ "{oops") :: [tokenEvent; tokenData "lo!"]) ""
    = scanNonStreaming (refEnv (DoErr "")) [tokenEvent; tokenData "lo!"]
        (scanNonStreaming (refEnv (DoErr "")) [] "") /\
  exists chunk st1,
    scanStreaming (refEnv (DoErr ""))
        ([] ++ tokenEvent :: (dataPrefix +:+ "{oops") :: [tokenEvent; tokenData "lo!"])
        (initSt "gpt-4o")
      = scanStreaming (refEnv (DoErr "")) [tokenEvent; tokenData "lo!"] st1 /\
    bodyOf st1
      = bodyOf (scanStreaming (refEnv (DoErr "")) [] (initSt "gpt-4o"))
        ++ [PChunk chunk] /\
    Carries chunk
      (YouChatResponse.YouChatToken
         (jsonUnmarshal (refEnv (DoErr ""))
            (TrimPrefix (dataPrefix +:+ "{oops") dataPrefix)).2).
Proof.
  apply (streaming_keeps_malformed_record (refEnv (DoErr ""))
           [] tokenEvent (dataPrefix +:+ "{oops") [tokenEvent; tokenData "lo!"]
           "" (initSt "gpt-4o")).
  - apply Paired_end.
  - reflexivity.
  - right. vm_compute. reflexivity.
Defined.

(** The failing input of C10, run: the data line below is malformed (it
    lacks the prefix, and the buffering loop drops it), and the chunk
    the streaming loop writes for it has the delta "x". *)
Example unprefixed_line_run :
  HasPrefix unprefixedToken dataPrefix = false /\
  scanNonStreaming (refEnv (DoErr "")) [tokenEvent; unprefixedToken] "" = "" /\
  (fun chunk => OpenAIStreamResponse.Choices chunk)
    <$> chunksOf (bodyOf (scanStreaming (refEnv (DoErr ""))
                            [tokenEvent; unprefixedToken] (initSt "gpt-4o")))
    = [ [Choice.mk (Delta.mk "x") 0 ""] ].
Proof. vm_compute. repeat split; reflexivity. Qed.

(** ** The handler *)

Lemma isChatPath_not_models (path : string) :
  isChatPath path = true -> isModelsPath path = false.
Proof.
  unfold isChatPath, isModelsPath.
  rewrite !orb_true_iff, !String.eqb_eq. intros [[->| ->]| ->]; reflexivity.
Qed.

(** [messages[len(messages)-1]] is the last message, and panics exactly
    on the empty slice. *)
Lemma index_last {A} (s : list A) : index s (Z.of_nat (length s) - 1) = last s.
Proof.
  destruct s as [|x s _] using rev_ind; [reflexivity|].
  rewrite last_snoc. unfold index. rewrite length_app. cbn [length].
  destruct (Z.ltb_spec (Z.of_nat (length s + 1) - 1) 0); [lia|].
  destruct (Z.leb_spec (Z.of_nat (length s + 1)) (Z.of_nat (length s + 1) - 1));
    [lia|].
  cbn [orb].
  replace (Z.to_nat (Z.of_nat (length s + 1) - 1)) with (length s) by lia.
  by apply list_lookup_middle.
Qed.

Lemma index_None_empty {A} (s : list A) :
  index s (Z.of_nat (length s) - 1) = None <-> s = [].
Proof. rewrite index_last. apply last_None. Qed.

(** The handler on an authorized chat request whose body decoded. *)
Lemma Handler_chat (E : Env) (r : Request.t) (st : St) (openAIReq : OpenAIRequest.t) :
  isChatPath (Request.Path r) = true ->
  String.eqb (Request.Method r) "OPTIONS" = false ->
  HasPrefix (Request.Authorization r) "Bearer " = true ->
  Request.Body r = Some openAIReq ->
  Handler E r st =
    let st := setOriginalModel (OpenAIRequest.Model openAIReq) (withCORS st) in
    let messages := OpenAIRequest.Messages openAIReq in
    match index messages (Z.of_nat (length messages) - 1) with
    | None => Panicked st "runtime error: index out of range [-1]"
    | Some final =>
        let youReq := upstreamRequest E openAIReq (Request.Authorization r) final in
        if negb (OpenAIRequest.Stream openAIReq)
        then Returned (handleNonStreamingResponse E youReq st)
        else Returned (handleStreamingResponse E youReq st)
    end.
Proof.
  intros Hpath Hmethod Hauth Hbody. unfold Handler.
  rewrite (isChatPath_not_models _ Hpath), Hpath, Hmethod, Hauth, Hbody.
  reflexivity.
Qed.

Lemma sent_handleNonStreamingResponse (E : Env) youReq st :
  sent (handleNonStreamingResponse E youReq st) = sent st ++ [youReq].
Proof.
  unfold handleNonStreamingResponse.
  destruct (clientDo E youReq) as [msg|lines []]; reflexivity.
Qed.

Lemma sent_handleStreamingResponse (E : Env) youReq st :
  sent (handleStreamingResponse E youReq st) = sent st ++ [youReq].
Proof.
  unfold handleStreamingResponse.
  destruct (clientDo E youReq) as [msg|lines readErr]; [reflexivity|].
  by rewrite sent_scanStreaming.
Qed.

(** C9. The handler reads [messages[len(messages)-1]] without a guard:
    on an authorized chat request whose body decoded, the handler panics
    exactly when the message list is empty; when it is not empty the
    index is in range, it selects the last message, and the handler
    returns. *)
Theorem empty_messages_panic (E : Env) (r : Request.t) (st : St)
    (openAIReq : OpenAIRequest.t) :
  isChatPath (Request.Path r) = true ->
  String.eqb (Request.Method r) "OPTIONS" = false ->
  HasPrefix (Request.Authorization r) "Bearer " = true ->
  Request.Body r = Some openAIReq ->
  (isPanicked (Handler E r st) = true <-> OpenAIRequest.Messages openAIReq = []) /\
  (OpenAIRequest.Messages openAIReq <> [] ->
     exists final st',
       last (OpenAIRequest.Messages openAIReq) = Some final /\
       index (OpenAIRequest.Messages openAIReq)
             (Z.of_nat (length (OpenAIRequest.Messages openAIReq)) - 1)
         = Some final /\
       Handler E r st = Returned st').
Proof.
  intros Hpath Hmethod Hauth Hbody.
  rewrite (Handler_chat E r st openAIReq Hpath Hmethod Hauth Hbody).
  cbv zeta.
  destruct (index (OpenAIRequest.Messages openAIReq)
              (Z.of_nat (length (OpenAIRequest.Messages openAIReq)) - 1))
    as [final|] eqn:Hidx.
  - assert (Hne : OpenAIRequest.Messages openAIReq <> []).
    { intros Hnil. apply index_None_empty in Hnil. congruence. }
    split.
    + destruct (negb (OpenAIRequest.Stream openAIReq)); simpl; split;
        [discriminate|done|discriminate|done].
    + intros _. rewrite index_last in Hidx.
      destruct (negb (OpenAIRequest.Stream openAIReq)); eauto.
  - apply index_None_empty in Hidx. split; [by split|]. by intros [].
Qed.

Lemma empty_messages_panic_witness :
  isPanicked
    (Handler (refEnv (DoResp helloStream false))
       (Request.mk "/v1/chat/completions" "POST" "Bearer secret"
          (Some (OpenAIRequest.mk [] false "gpt-4o")))
       (initSt "")) = true.
Proof.
  apply (empty_messages_panic (refEnv (DoResp helloStream false))
           (Request.mk "/v1/chat/completions" "POST" "Bearer secret"
              (Some (OpenAIRequest.mk [] false "gpt-4o")))
           (initSt "") (OpenAIRequest.mk [] false "gpt-4o"));
    reflexivity.
Defined.

(** *** The authorization gate *)

(** C7.  Authorization gate.  A request whose Authorization header does
    not start with "Bearer " never reaches the upstream call: nothing is
    handed to [client.Do], on any path and with any method.  When it is
    a chat-completion request (a chat-completions path, a method other
    than the OPTIONS of the preflight) the handler answers 401 with the
    plain-text message and returns.  The requests the handler answers
    before it looks at the header (the model list, the status page of
    the other paths, the preflight) are answered 200, which is what the
    specification says of them. *)
Theorem authorization_gate (E : Env) (r : Request.t) (leftover : string) :
  HasPrefix (Request.Authorization r) "Bearer " = false ->
  sent (finalSt (Handler E r (initSt leftover))) = [] /\
  (isChatPath (Request.Path r) = true ->
   String.eqb (Request.Method r) "OPTIONS" = false ->
   exists st',
     Handler E r (initSt leftover) = Returned st' /\
     ResponseWriter.Code (w st') = Some StatusUnauthorized /\
     bodyOf st' = [PText ("Missing or invalid authorization header" +:+ newline)]) /\
  (isChatPath (Request.Path r) = false
   \/ String.eqb (Request.Method r) "OPTIONS" = true ->
   exists st',
     Handler E r (initSt leftover) = Returned st' /\
     ResponseWriter.Code (w st') = Some StatusOK).
Proof.
  intros Hauth. split; [|split].
  - unfold Handler.
    destruct (isModelsPath (Request.Path r)).
    { destruct (String.eqb (Request.Method r) "OPTIONS"); reflexivity. }
    destruct (isChatPath (Request.Path r)); cbn [negb]; [|reflexivity].
    destruct (String.eqb (Request.Method r) "OPTIONS"); [reflexivity|].
    rewrite Hauth. reflexivity.
  - intros Hpath Hmethod. unfold Handler.
    rewrite (isChatPath_not_models _ Hpath), Hpath, Hmethod, Hauth.
    cbn [negb]. eexists. split; [reflexivity|]. split; reflexivity.
  - intros Hearly. unfold Handler.
    destruct (isModelsPath (Request.Path r)).
    { destruct (String.eqb (Request.Method r) "OPTIONS");
        eexists; split; reflexivity. }
    destruct (isChatPath (Request.Path r)); cbn [negb];
      [|eexists; split; reflexivity].
    destruct Hearly as [Hpath|Hmethod]; [discriminate|].
    rewrite Hmethod. eexists; split; reflexivity.
Qed.

Lemma authorization_gate_witness :
  (sent (finalSt (Handler (refEnv (DoResp helloStream false))
                    (Request.mk "/v1/chat/completions" "POST" "Basic dXNlcjpwdw=="
                       (Some (OpenAIRequest.mk [Message.mk "user" "Hi"] false "gpt-4o")))
                    (initSt ""))) = [] /\
   exists st',
     Handler (refEnv (DoResp helloStream false))
       (Request.mk "/v1/chat/completions" "POST" "Basic dXNlcjpwdw=="
          (Some (OpenAIRequest.mk [Message.mk "user" "Hi"] false "gpt-4o")))
       (initSt "") = Returned st' /\
     ResponseWriter.Code (w st') = Some StatusUnauthorized /\
     bodyOf st' = [PText ("Missing or invalid authorization header" +:+ newline)]) /\
  (sent (finalSt (Handler (refEnv (DoResp helloStream false))
                    (Request.mk "/v1/chat/completions" "OPTIONS" "" None)
                    (initSt ""))) = [] /\
   exists st',
     Handler (refEnv (DoResp helloStream false))
       (Request.mk "/v1/chat/completions" "OPTIONS" "" None)
       (initSt "") = Returned st' /\
     ResponseWriter.Code (w st') = Some StatusOK).
Proof.
  split.
  - destruct (authorization_gate (refEnv (DoResp helloStream false))
                (Request.mk "/v1/chat/completions" "POST" "Basic dXNlcjpwdw=="
                   (Some (OpenAIRequest.mk [Message.mk "user" "Hi"] false "gpt-4o")))
                "" eq_refl) as (Hsent & Hchat & _).
    split; [exact Hsent|]. apply Hchat; reflexivity.
  - destruct (authorization_gate (refEnv (DoResp helloStream false))
                (Request.mk "/v1/chat/completions" "OPTIONS" "" None)
                "" eq_refl) as (Hsent & _ & Hearly).
    split; [exact Hsent|]. apply Hearly. right. reflexivity.
Defined.

(** The authorization check, run: the chat request without a bearer
    token is answered 401; the preflight and the request for the model
    list, which carry no Authorization header either, are answered 200
    before the header is looked at. *)
Example authorization_gate_run :
  ResponseWriter.Code
    (w (finalSt (Handler (refEnv (DoErr ""))
                   (Request.mk "/v1/chat/completions" "POST" "" None)
                   (initSt "")))) = Some StatusUnauthorized /\
  ResponseWriter.Code
    (w (finalSt (Handler (refEnv (DoErr ""))
                   (Request.mk "/v1/chat/completions" "OPTIONS" "" None)
                   (initSt "")))) = Some StatusOK /\
  ResponseWriter.Code
    (w (finalSt (Handler (refEnv (DoErr ""))
                   (Request.mk "/v1/models" "GET" "" None)
                   (initSt "")))) = Some StatusOK.
Proof. vm_compute. repeat split; reflexivity. Qed.

(** *** The end-to-end example *)

(** C1. For the request with messages [{role: user, content: Hi}],
    model gpt-4o and stream false, the handler makes one upstream
    request, whose query carries selectedAiModel gpt_4o, the encoded
    history [{question: Hi, answer: empty}], pastChatLength 0 and the
    query text Hi; and if the upstream body is read to its end and
    yields exactly the tokens Hel and lo!, the handler returns with
    status 200 and one completion whose content is Hello!, whose model
    is gpt-4o and whose finish reason is stop. *)
Theorem end_to_end_example (E : Env) (r : Request.t) (leftover : string) :
  isChatPath (Request.Path r) = true ->
  String.eqb (Request.Method r) "OPTIONS" = false ->
  HasPrefix (Request.Authorization r) "Bearer " = true ->
  Request.Body r
    = Some (OpenAIRequest.mk [Message.mk "user" "Hi"] false "gpt-4o") ->
  exists youReq,
    sent (finalSt (Handler E r (initSt leftover))) = [youReq] /\
    buildChatHistory [Message.mk "user" "Hi"] = [historyRecord "Hi" ""] /\
    QueryGet (YouRequest.Query youReq) "selectedAiModel" = Some "gpt_4o" /\
    QueryGet (YouRequest.Query youReq) "chat"
      = Some (jsonMarshal E [historyRecord "Hi" ""]) /\
    QueryGet (YouRequest.Query youReq) "pastChatLength" = Some "0" /\
    QueryGet (YouRequest.Query youReq) "q" = Some "Hi" /\
    forall lines,
      clientDo E youReq = DoResp lines false ->
      Yields E lines ["Hel"; "lo!"] ->
      exists st' resp,
        Handler E r (initSt leftover) = Returned st' /\
        ResponseWriter.Code (w st') = Some StatusOK /\
        bodyOf st' = [PCompletion resp] /\
        OpenAIResponse.Model resp = "gpt-4o" /\
        OpenAIResponse.Choices resp
          = [OpenAIChoice.mk (Message.mk "assistant" "Hello!") 0 "stop"].
Proof.
  intros Hpath Hmethod Hauth Hbody.
  rewrite (Handler_chat E r (initSt leftover) _ Hpath Hmethod Hauth Hbody).
  cbv zeta. cbn [OpenAIRequest.Messages OpenAIRequest.Stream OpenAIRequest.Model negb].
  change (index [Message.mk "user" "Hi"] (Z.of_nat (length [Message.mk "user" "Hi"]) - 1))
    with (Some (Message.mk "user" "Hi")).
  cbv iota beta.
  set (openAIReq := OpenAIRequest.mk [Message.mk "user" "Hi"] false "gpt-4o").
  set (youReq := upstreamRequest E openAIReq (Request.Authorization r)
                   (Message.mk "user" "Hi")).
  exists youReq.
  split; [cbn [finalSt]; by rewrite sent_handleNonStreamingResponse|].
  assert (Hhist : buildChatHistory [Message.mk "user" "Hi"] = [historyRecord "Hi" ""])
    by (vm_compute; reflexivity).
  split; [exact Hhist|].
  split; [vm_compute; reflexivity|].
  split.
  { unfold youReq, upstreamRequest, openAIReq. cbn [YouRequest.Query OpenAIRequest.Messages].
    rewrite Hhist. vm_compute. reflexivity. }
  split; [vm_compute; reflexivity|].
  split; [vm_compute; reflexivity|].
  intros lines Hdo HY.
  set (st0 := setOriginalModel "gpt-4o" (withCORS (initSt leftover))).
  destruct (handleNonStreamingResponse_read E youReq st0 lines Hdo)
    as (resp & Hb & _ & Hmodel & Hchoices & _).
  exists (handleNonStreamingResponse E youReq st0), resp.
  split; [reflexivity|].
  split; [by apply (handleNonStreamingResponse_code E youReq st0 lines)|].
  split; [exact Hb|].
  split.
  - rewrite Hmodel. vm_compute. reflexivity.
  - rewrite Hchoices.
    rewrite (scanNonStreaming_yields E lines ["Hel"; "lo!"] "" HY). reflexivity.
Qed.

Lemma end_to_end_example_witness :
  exists st' resp,
    Handler (refEnv (DoResp helloStream false))
      (Request.mk "/v1/chat/completions" "POST" "Bearer secret"
         (Some (OpenAIRequest.mk [Message.mk "user" "Hi"] false "gpt-4o")))
      (initSt "deepseek-chat") = Returned st' /\
    ResponseWriter.Code (w st') = Some StatusOK /\
    bodyOf st' = [PCompletion resp] /\
    OpenAIResponse.Model resp = "gpt-4o" /\
    OpenAIResponse.Choices resp
      = [OpenAIChoice.mk (Message.mk "assistant" "Hello!") 0 "stop"].
Proof.
  destruct (end_to_end_example (refEnv (DoResp helloStream false))
              (Request.mk "/v1/chat/completions" "POST" "Bearer secret"
                 (Some (OpenAIRequest.mk [Message.mk "user" "Hi"] false "gpt-4o")))
              "deepseek-chat" eq_refl eq_refl eq_refl eq_refl)
    as (youReq & _ & _ & _ & _ & _ & _ & Hresp).
  apply (Hresp helloStream); [reflexivity|apply helloStream_yields].
Defined.

(** ** The reference codec, run *)

Example unmarshalToken_token :
  Json.unmarshalToken (TrimPrefix (tokenData "Hel") dataPrefix)
  = (false, YouChatResponse.mk "Hel").
Proof. vm_compute. reflexivity. Qed.

(** The empty text is a syntax error: the token stays empty. *)
Example unmarshalToken_empty :
  Json.unmarshalToken "" = (true, YouChatResponse.mk "").
Proof. vm_compute. reflexivity. Qed.

Example unmarshalToken_null :
  Json.unmarshalToken "null" = (false, YouChatResponse.mk "").
Proof. vm_compute. reflexivity. Qed.

(** A value of the wrong type is an error, and decoding goes on: a later
    member may still fill the token. *)
Example unmarshalToken_type_error :
  Json.unmarshalToken
    ("{" +:+ doubleQuote +:+ "youChatToken" +:+ doubleQuote +:+ ":5,"
     +:+ doubleQuote +:+ "YOUCHATTOKEN" +:+ doubleQuote +:+ ":"
     +:+ doubleQuote +:+ "x" +:+ doubleQuote +:+ "}")
  = (true, YouChatResponse.mk "x").
Proof. vm_compute. reflexivity. Qed.

(** Nesting beyond the decoder's limit is a syntax error. *)
Example parse_depth :
  (match Json.parse (Json.brackets (100 * 100) "0") with
   | Some _ => true
   | None => false
   end) = true /\
  Json.parse (Json.brackets (100 * 100 + 1) "0") = None.
Proof. split; vm_compute; reflexivity. Qed.

(** The encoder on bytes that are not ASCII: a well-formed sequence is
    copied, U+2028 is escaped, a stray byte becomes the escape of
    U+FFFD. *)
Example escape_example :
  Json.escape (Json.byte 195 +:+ Json.byte 169) = Json.byte 195 +:+ Json.byte 169 /\
  Json.escape (Json.byte 226 +:+ Json.byte 128 +:+ Json.byte 168 +:+ "<")
    = Json.byte 92 +:+ "u2028" +:+ Json.byte 92 +:+ "u003c" /\
  Json.escape (Json.byte 255 +:+ "a") = Json.byte 92 +:+ "ufffda".
Proof. vm_compute. repeat split; reflexivity. Qed.

Example marshalHistory_example :
  Json.marshalHistory
    (buildChatHistory [Message.mk "user" "Hi"; Message.mk "assistant" "Yo"])
  = "[{" +:+ doubleQuote +:+ "answer" +:+ doubleQuote +:+ ":"
    +:+ doubleQuote +:+ doubleQuote +:+ ","
    +:+ doubleQuote +:+ "question" +:+ doubleQuote +:+ ":"
    +:+ doubleQuote +:+ "Hi" +:+ doubleQuote +:+ "},{"
    +:+ doubleQuote +:+ "answer" +:+ doubleQuote +:+ ":"
    +:+ doubleQuote +:+ "Yo" +:+ doubleQuote +:+ ","
    +:+ doubleQuote +:+ "question" +:+ doubleQuote +:+ ":"
    +:+ doubleQuote +:+ doubleQuote +:+ "}]".
Proof. vm_compute. reflexivity. Qed.

(** The end-to-end request, streamed: two chunks, then the handler
    returns without a closing chunk. *)
Example end_to_end_streamed :
  (fun chunk => (OpenAIStreamResponse.Model chunk, OpenAIStreamResponse.Choices chunk))
    <$> chunksOf
          (bodyOf
             (finalSt
                (Handler (refEnv (DoResp helloStream false))
                   (Request.mk "/v1/chat/completions" "POST" "Bearer secret"
                      (Some (OpenAIRequest.mk [Message.mk "user" "Hi"] true "gpt-4o")))
                   (initSt ""))))
  = [ ("gpt-4o", [Choice.mk (Delta.mk "Hel") 0 ""]);
      ("gpt-4o", [Choice.mk (Delta.mk "lo!") 0 ""]) ].
Proof. vm_compute. reflexivity. Qed.

(** * Further properties of the gateway *)

(** ** The two model tables *)

Lemma option_cases {A} (o : option A) : (exists x, o = Some x) \/ o = None.
Proof. destruct o; eauto. Qed.

(** The reverse table holds nothing but the inverted entries. *)
Lemma getReverseModelMap_inv (k v : string) :
  getReverseModelMap !! v = Some k -> modelMap !! k = Some v.
Proof.
  intros Hrev.
  destruct (decide (v ∈ (map_to_list modelMap).*2)) as [Hin|Hout].
  - apply list_elem_of_fmap in Hin as [[k' v'] [-> Hin]]. simpl in Hrev.
    apply elem_of_map_to_list in Hin.
    rewrite (getReverseModelMap_lookup k' v' Hin) in Hrev.
    injection Hrev as <-. exact Hin.
  - unfold getReverseModelMap in Hrev.
    rewrite reverseOver_miss in Hrev by done. discriminate.
Qed.

(** X1. [getReverseModelMap] ranges over the map [modelMap], in an order
    Go does not fix.  Whatever the order, the loop builds the same
    table, and that table is the inverse of [modelMap]: it sends [v] to
    [k] exactly when [modelMap] sends [k] to [v]. *)
Theorem reverse_table_any_order (order : list (string * string)) :
  order ≡ₚ map_to_list modelMap ->
  reverseOver order = getReverseModelMap /\
  forall k v, reverseOver order !! v = Some k <-> modelMap !! k = Some v.
Proof.
  intros Hperm.
  rewrite (getReverseModelMap_any_order order Hperm).
  split; [reflexivity|]. intros k v. split.
  - apply getReverseModelMap_inv.
  - apply getReverseModelMap_lookup.
Qed.

Lemma reverse_table_any_order_witness :
  reverseOver (reverse (map_to_list modelMap)) = getReverseModelMap /\
  forall k v,
    reverseOver (reverse (map_to_list modelMap)) !! v = Some k
    <-> modelMap !! k = Some v.
Proof.
  apply (reverse_table_any_order (reverse (map_to_list modelMap))).
  apply reverse_Permutation.
Defined.

(** X2. The model name reported to the client is
    [reverseMapModelName (mapModelName m)] for the requested name [m]:
    it is [m] itself when [m] is a key of [modelMap], and "deepseek-chat"
    for every other name.  The name given to [reverseMapModelName] is
    always in the reverse table, so its own default is never used there. *)
Theorem reported_model_name (m : string) :
  reverseMapModelName (mapModelName m)
    = match modelMap !! m with Some _ => m | None => "deepseek-chat" end /\
  is_Some (getReverseModelMap !! mapModelName m).
Proof.
  destruct (option_cases (modelMap !! m)) as [[v Hm]|Hm].
  - assert (Hmap : mapModelName m = v) by (unfold mapModelName; by rewrite Hm).
    rewrite Hmap, Hm. split.
    + unfold reverseMapModelName. cbv zeta.
      by rewrite (getReverseModelMap_lookup m v Hm).
    + exists m. by apply getReverseModelMap_lookup.
  - assert (Hmap : mapModelName m = "deepseek_v3")
      by (unfold mapModelName; by rewrite Hm).
    rewrite Hmap, Hm. split.
    + vm_compute. reflexivity.
    + exists "deepseek-chat". vm_compute. reflexivity.
Qed.

(** X3. In the other direction, [mapModelName (reverseMapModelName v)]
    is [v] when [v] is an upstream name of the table, and "deepseek_v3"
    for every other string: the two defaults are sent to each other. *)
Theorem upstream_name_round_trip (v : string) :
  mapModelName (reverseMapModelName v)
    = match getReverseModelMap !! v with Some _ => v | None => "deepseek_v3" end.
Proof.
  destruct (option_cases (getReverseModelMap !! v)) as [[k Hv]|Hv].
  - assert (Hrev : reverseMapModelName v = k)
      by (unfold reverseMapModelName; cbv zeta; by rewrite Hv).
    rewrite Hrev, Hv. unfold mapModelName.
    by rewrite (getReverseModelMap_inv k v Hv).
  - assert (Hrev : reverseMapModelName v = "deepseek-chat")
      by (unfold reverseMapModelName; cbv zeta; by rewrite Hv).
    rewrite Hrev, Hv. vm_compute. reflexivity.
Qed.

(** ** The history records *)

Lemma historyRecord_inj (q a q' a' : string) :
  historyRecord q a = historyRecord q' a' -> q = q' /\ a = a'.
Proof.
  intros H. split.
  - assert (Hq : historyRecord q a !! "question" = historyRecord q' a' !! "question")
      by (by rewrite H).
    rewrite !historyRecord_question in Hq. by injection Hq.
  - assert (Ha : historyRecord q a !! "answer" = historyRecord q' a' !! "answer")
      by (by rewrite H).
    rewrite !historyRecord_answer in Ha. by injection Ha.
Qed.

(** X4. What a history record keeps of a message: two messages give the
    same record exactly when they have the same content and, unless that
    content is empty, agree on being an assistant message or not.  The
    content is never lost; the role is kept only as assistant or
    not assistant (user and system messages are not told apart), and not
    at all for an empty content. *)
Theorem history_record_identity (m1 m2 : Message.t) :
  chatMsgOf m1 = chatMsgOf m2 <->
  Message.Content m1 = Message.Content m2 /\
  (Message.Content m1 = "" \/ isAssistant m1 = isAssistant m2).
Proof.
  rewrite !chatMsgOf_record. unfold isAssistant.
  destruct (String.eqb (Message.Role m1) "assistant"),
           (String.eqb (Message.Role m2) "assistant"); split.
  - intros H. apply historyRecord_inj in H as [_ H]. auto.
  - intros [-> _]. reflexivity.
  - intros H. apply historyRecord_inj in H as [H1 H2]. split; [congruence|].
    left. congruence.
  - intros [Hc [He|Hb]]; [|discriminate]. rewrite <- Hc, He. reflexivity.
  - intros H. apply historyRecord_inj in H as [H1 H2]. split; [congruence|].
    left. congruence.
  - intros [Hc [He|Hb]]; [|discriminate]. rewrite <- Hc, He. reflexivity.
  - intros H. apply historyRecord_inj in H as [H _]. auto.
  - intros [-> _]. reflexivity.
Qed.

(** ** The response handlers *)

Lemma chunkText_carries chunk text : Carries chunk text -> chunkText chunk = text.
Proof.
  intros [_ Hchoices]. unfold chunkText. rewrite Hchoices.
  cbn. apply append_empty_r.
Qed.

Lemma chunkText_all chunks tokens :
  Forall2 Carries chunks tokens -> chunkText <$> chunks = tokens.
Proof.
  induction 1 as [|chunk text chunks tokens Hc _ IH]; [reflexivity|].
  rewrite fmap_cons, IH. by rewrite (chunkText_carries chunk text Hc).
Qed.

(** A stream without token-event markers carries no token. *)
Lemma Yields_no_marker (E : Env) (lines : list string) :
  Forall (fun line => HasPrefix line tokenEvent = false) lines ->
  Yields E lines [].
Proof.
  induction 1 as [|line lines Hline _ IH]; [apply Yields_end|].
  by apply Yields_other.
Qed.

Lemma scanStreaming_no_marker (E : Env) (lines : list string) (st : St) :
  Forall (fun line => HasPrefix line tokenEvent = false) lines ->
  scanStreaming E lines st = st.
Proof.
  induction 1 as [|line lines Hline _ IH]; [reflexivity|].
  by rewrite scanStreaming_other.
Qed.

Lemma emitChunk_facts (E : Env) (data : string) (st : St) :
  exists chunk text,
    bodyOf (emitChunk E data st) = bodyOf st ++ [PChunk chunk] /\
    Carries chunk text /\
    OpenAIStreamResponse.Model chunk
      = reverseMapModelName (mapModelName (originalModel st)) /\
    OpenAIStreamResponse.ID chunk
      = "chatcmpl-" +:+ pretty (unixNow E (clockReads st)) /\
    OpenAIStreamResponse.Created chunk = unixNow E (S (clockReads st)) /\
    clockReads (emitChunk E data st) = S (S (clockReads st)) /\
    headerOf (emitChunk E data st) = headerOf st /\
    originalModel (emitChunk E data st) = originalModel st.
Proof. unfold emitChunk. eexists _, _. repeat split. Qed.

Lemma markers_scanRest (unread : list string) :
  (length (List.filter (fun line => HasPrefix line tokenEvent) (scanRest unread))
   <= length (List.filter (fun line => HasPrefix line tokenEvent) unread))%nat.
Proof.
  destruct unread as [|line unread]; [done|]. cbn [scanRest List.filter].
  destruct (HasPrefix line tokenEvent); cbn [length]; lia.
Qed.

(** X13. Whatever the upstream sends (well formed or not, complete or
    truncated), the streaming loop writes nothing but chunks: each has
    the object "chat.completion.chunk", one choice with index 0 and an
    empty finish reason, and the model name derived from
    [originalModel]; so no chunk ever carries a terminal finish marker.
    It writes at most one chunk per token-event marker line, reads the
    clock exactly twice per chunk, and touches neither the response
    headers nor [originalModel]. *)
Theorem streaming_writes_only_chunks (E : Env) (lines : list string) (st : St) :
  exists chunks,
    bodyOf (scanStreaming E lines st) = bodyOf st ++ (PChunk <$> chunks) /\
    Forall (fun chunk =>
              (exists text, Carries chunk text) /\
              OpenAIStreamResponse.Model chunk
                = reverseMapModelName (mapModelName (originalModel st))) chunks /\
    (length chunks
     <= length (List.filter (fun line => HasPrefix line tokenEvent) lines))%nat /\
    clockReads (scanStreaming E lines st) = (clockReads st + 2 * length chunks)%nat /\
    headerOf (scanStreaming E lines st) = headerOf st /\
    originalModel (scanStreaming E lines st) = originalModel st.
Proof.
  remember (length lines) as n eqn:Hn. revert lines st Hn.
  induction n as [n IH] using lt_wf_ind. intros lines st ->.
  destruct lines as [|line unread].
  { exists []. split; [simpl; by rewrite app_nil_r|]. split; [constructor|].
    split; [simpl; lia|]. split; [simpl; lia|]. split; reflexivity. }
  destruct (HasPrefix line tokenEvent) eqn:Hev.
  - rewrite scanStreaming_event by done.
    destruct (emitChunk_facts E (scanText unread) st)
      as (chunk & text & Hbody & Hcarries & Hmodel & _ & _ & Hclock & Hhdr & Horig).
    destruct (IH (length (scanRest unread))
                 ltac:(destruct unread; simpl; lia)
                 (scanRest unread) (emitChunk E (scanText unread) st) eq_refl)
      as (chunks & Hb & Hall & Hlen & Hck & Hh & Ho).
    exists (chunk :: chunks). split; [|split; [|split; [|split; [|split]]]].
    + rewrite Hb, Hbody, <- app_assoc. reflexivity.
    + constructor; [by eauto|]. by rewrite Horig in Hall.
    + cbn [List.filter]. rewrite Hev. cbn [length].
      pose proof (markers_scanRest unread). lia.
    + rewrite Hck, Hclock. cbn [length]. lia.
    + by rewrite Hh.
    + by rewrite Ho.
  - rewrite scanStreaming_other by done.
    destruct (IH (length unread) ltac:(simpl; lia) unread st eq_refl)
      as (chunks & Hb & Hall & Hlen & Hck & Hh & Ho).
    exists chunks. cbn [List.filter]. rewrite Hev. by repeat split.
Qed.

(** The streaming loop uses the runtime for the decoder and the clock
    only, not for the upstream. *)
Lemma scanStreaming_setResponse (E : Env) (response : UpstreamResult) lines st :
  scanStreaming (setResponse E response) lines st = scanStreaming E lines st.
Proof.
  remember (length lines) as n eqn:Hn. revert lines st Hn.
  induction n as [n IH] using lt_wf_ind. intros lines st ->.
  destruct lines as [|line unread]; [reflexivity|].
  destruct (HasPrefix line tokenEvent) eqn:Hev.
  - rewrite !scanStreaming_event by done.
    change (emitChunk (setResponse E response)) with (emitChunk E).
    apply (IH (length (scanRest unread))); [|reflexivity].
    destruct unread; simpl; lia.
  - rewrite !scanStreaming_other by done.
    apply (IH (length unread)); [simpl; lia|reflexivity].
Qed.

(** Cutting a body at the buffer of the streaming scanner adds no
    marker line to it. *)
Lemma streamLines_no_marker (lines : list string) :
  Forall (fun line => HasPrefix line tokenEvent = false) lines ->
  Forall (fun line => HasPrefix line tokenEvent = false) (streamLines lines).
Proof.
  induction 1 as [|line lines Hline _ IH]; [constructor|].
  cbn [streamLines]. rewrite Hline.
  destruct (tooLong line); by constructor.
Qed.

(** X11. On a stream of well-formed token events that is read to its
    end and whose lines are all shorter than the 64 KiB buffer of the
    streaming scanner, the two assemblers agree: the content of the
    buffered completion is the concatenation, in order, of the delta
    texts of the chunks the streaming handler writes for the same
    upstream body, and both are the concatenation of the tokens.  (With
    a longer line they differ, see [long_line_run].) *)
Theorem buffered_equals_streamed (E : Env) youReq st lines tokens :
  clientDo E youReq = DoResp lines false ->
  Forall (fun line => tooLong line = false) lines ->
  Yields E lines tokens ->
  exists resp chunks,
    bodyOf (handleNonStreamingResponse E youReq st)
      = bodyOf st ++ [PCompletion resp] /\
    bodyOf (handleStreamingResponse E youReq st)
      = bodyOf st ++ (PChunk <$> chunks) /\
    completionText resp = concatTokens tokens /\
    completionText resp = concatTokens (chunkText <$> chunks).
Proof.
  intros Hdo Hfit HY.
  destruct (handleNonStreamingResponse_read E youReq st lines Hdo)
    as (resp & Hbody & _ & _ & Hchoices & _).
  assert (Hs : exists chunks,
             bodyOf (handleStreamingResponse E youReq st)
               = bodyOf st ++ (PChunk <$> chunks) /\
             Forall2 Carries chunks tokens).
  { unfold handleStreamingResponse. rewrite Hdo.
    rewrite (streamLines_fits lines Hfit).
    match goal with
    | |- context [scanStreaming E lines ?s] =>
        destruct (scanStreaming_yields E lines tokens s HY) as (chunks & Hb & Hall)
    end.
    by exists chunks. }
  destruct Hs as (chunks & Hsbody & Hall).
  assert (Htext : completionText resp = concatTokens tokens).
  { unfold completionText. rewrite Hchoices. cbn.
    rewrite (scanNonStreaming_yields E lines tokens "" HY).
    apply append_empty_r. }
  exists resp, chunks. repeat split; try done.
  by rewrite (chunkText_all chunks tokens Hall).
Qed.

Lemma buffered_equals_streamed_witness :
  exists resp chunks,
    bodyOf (handleNonStreamingResponse (refEnv (DoResp helloStream false))
              plainRequest (initSt "gpt-4o"))
      = bodyOf (initSt "gpt-4o") ++ [PCompletion resp] /\
    bodyOf (handleStreamingResponse (refEnv (DoResp helloStream false))
              plainRequest (initSt "gpt-4o"))
      = bodyOf (initSt "gpt-4o") ++ (PChunk <$> chunks) /\
    completionText resp = concatTokens ["Hel"; "lo!"] /\
    completionText resp = concatTokens (chunkText <$> chunks).
Proof.
  apply (buffered_equals_streamed (refEnv (DoResp helloStream false))
           plainRequest (initSt "gpt-4o") helloStream ["Hel"; "lo!"]).
  - reflexivity.
  - unfold helloStream. repeat (constructor; [vm_compute; reflexivity|]).
    constructor.
  - apply helloStream_yields.
Defined.

(** X9. When [client.Do] fails, both response handlers do the same
    thing: the request counts as sent, the error text is written as a
    plain-text 500 and nothing else is written; the streaming handler
    does not announce an event stream. *)
Theorem upstream_transport_failure (E : Env) youReq st msg :
  clientDo E youReq = DoErr msg ->
  codeOf st = None ->
  handleStreamingResponse E youReq st = handleNonStreamingResponse E youReq st /\
  bodyOf (handleNonStreamingResponse E youReq st)
    = bodyOf st ++ [PText (msg +:+ newline)] /\
  codeOf (handleNonStreamingResponse E youReq st) = Some StatusInternalServerError /\
  headerOf (handleNonStreamingResponse E youReq st) !! "Content-Type"
    = Some "text/plain; charset=utf-8" /\
  sent (handleNonStreamingResponse E youReq st) = sent st ++ [youReq].
Proof.
  intros Hdo Hcode. unfold handleStreamingResponse, handleNonStreamingResponse.
  rewrite Hdo. split; [reflexivity|]. split; [reflexivity|].
  split; [|split; [|reflexivity]].
  - unfold codeOf in *. cbn. by rewrite Hcode.
  - unfold headerOf. cbn.
    rewrite lookup_insert_ne by discriminate. apply lookup_insert_eq.
Qed.

Lemma upstream_transport_failure_witness :
  handleStreamingResponse (refEnv (DoErr "dial tcp: connection refused"))
      plainRequest (initSt "gpt-4o")
    = handleNonStreamingResponse (refEnv (DoErr "dial tcp: connection refused"))
        plainRequest (initSt "gpt-4o") /\
  bodyOf (handleNonStreamingResponse (refEnv (DoErr "dial tcp: connection refused"))
            plainRequest (initSt "gpt-4o"))
    = bodyOf (initSt "gpt-4o")
      ++ [PText ("dial tcp: connection refused" +:+ newline)] /\
  codeOf (handleNonStreamingResponse (refEnv (DoErr "dial tcp: connection refused"))
            plainRequest (initSt "gpt-4o"))
    = Some StatusInternalServerError /\
  headerOf (handleNonStreamingResponse (refEnv (DoErr "dial tcp: connection refused"))
              plainRequest (initSt "gpt-4o")) !! "Content-Type"
    = Some "text/plain; charset=utf-8" /\
  sent (handleNonStreamingResponse (refEnv (DoErr "dial tcp: connection refused"))
          plainRequest (initSt "gpt-4o"))
    = sent (initSt "gpt-4o") ++ [plainRequest].
Proof.
  apply (upstream_transport_failure (refEnv (DoErr "dial tcp: connection refused"))
           plainRequest (initSt "gpt-4o") "dial tcp: connection refused");
    reflexivity.
Defined.

(** X10. When the body cannot be read to its end, the buffering handler
    answers 500 "Error reading response" and writes no completion,
    whatever tokens it had collected.  The streaming handler never looks
    at the scanner's error: it ends in the very state it reaches when
    the same lines are followed by the end of the body, so it writes no
    error text and no status 500; and when the lines it received are
    well-formed token events, each shorter than its scanner's buffer, it
    has written one chunk per token, in order. *)
Theorem upstream_read_failure (E : Env) youReq st lines :
  clientDo E youReq = DoResp lines true ->
  codeOf st = None ->
  bodyOf (handleNonStreamingResponse E youReq st)
    = bodyOf st ++ [PText ("Error reading response" +:+ newline)] /\
  codeOf (handleNonStreamingResponse E youReq st) = Some StatusInternalServerError /\
  handleStreamingResponse E youReq st
    = handleStreamingResponse (setResponse E (DoResp lines false)) youReq st /\
  (exists chunks,
     bodyOf (handleStreamingResponse E youReq st)
       = bodyOf st ++ (PChunk <$> chunks)) /\
  (forall tokens,
     Forall (fun line => tooLong line = false) lines ->
     Yields E lines tokens ->
     exists chunks,
       bodyOf (handleStreamingResponse E youReq st)
         = bodyOf st ++ (PChunk <$> chunks) /\
       Forall2 Carries chunks tokens).
Proof.
  intros Hdo Hcode. split; [|split; [|split; [|split]]].
  - unfold handleNonStreamingResponse. rewrite Hdo. reflexivity.
  - unfold handleNonStreamingResponse. rewrite Hdo.
    unfold codeOf in *. cbn. by rewrite Hcode.
  - unfold handleStreamingResponse. rewrite Hdo.
    cbn [setResponse clientDo]. by rewrite scanStreaming_setResponse.
  - unfold handleStreamingResponse. rewrite Hdo.
    match goal with
    | |- context [scanStreaming E ?l ?s] =>
        destruct (streaming_writes_only_chunks E l s) as (chunks & Hb & _)
    end.
    by exists chunks.
  - intros tokens Hfit HY. unfold handleStreamingResponse. rewrite Hdo.
    rewrite (streamLines_fits lines Hfit).
    match goal with
    | |- context [scanStreaming E lines ?s] =>
        destruct (scanStreaming_yields E lines tokens s HY) as (chunks & Hb & Hall)
    end.
    by exists chunks.
Qed.

Lemma upstream_read_failure_witness :
  bodyOf (handleNonStreamingResponse (refEnv (DoResp helloStream true))
            plainRequest (initSt "gpt-4o"))
    = bodyOf (initSt "gpt-4o") ++ [PText ("Error reading response" +:+ newline)] /\
  codeOf (handleNonStreamingResponse (refEnv (DoResp helloStream true))
            plainRequest (initSt "gpt-4o"))
    = Some StatusInternalServerError /\
  handleStreamingResponse (refEnv (DoResp helloStream true))
      plainRequest (initSt "gpt-4o")
    = handleStreamingResponse
        (setResponse (refEnv (DoResp helloStream true)) (DoResp helloStream false))
        plainRequest (initSt "gpt-4o") /\
  exists chunks,
    bodyOf (handleStreamingResponse (refEnv (DoResp helloStream true))
              plainRequest (initSt "gpt-4o"))
      = bodyOf (initSt "gpt-4o") ++ (PChunk <$> chunks) /\
    Forall2 Carries chunks ["Hel"; "lo!"].
Proof.
  destruct (upstream_read_failure (refEnv (DoResp helloStream true))
              plainRequest (initSt "gpt-4o") helloStream eq_refl eq_refl)
    as (Hbody & Hcode & Hsame & _ & Htokens).
  split; [exact Hbody|]. split; [exact Hcode|]. split; [exact Hsame|].
  apply (Htokens ["Hel"; "lo!"]).
  - unfold helloStream. repeat (constructor; [vm_compute; reflexivity|]).
    constructor.
  - apply helloStream_yields.
Defined.

(** X12. An upstream body without any token-event marker line (the empty
    body included) is not an error.  The streaming handler writes
    nothing, not even a status code, whether or not the body is read to
    its end.  The buffering handler, when the body is read to its end,
    answers 200 with a completion whose content is empty; when the read
    fails it answers 500 "Error reading response". *)
Theorem no_token_event_no_text (E : Env) youReq st lines readErr :
  Forall (fun line => HasPrefix line tokenEvent = false) lines ->
  clientDo E youReq = DoResp lines readErr ->
  codeOf st = None ->
  bodyOf (handleStreamingResponse E youReq st) = bodyOf st /\
  codeOf (handleStreamingResponse E youReq st) = None /\
  if readErr then
    bodyOf (handleNonStreamingResponse E youReq st)
      = bodyOf st ++ [PText ("Error reading response" +:+ newline)] /\
    codeOf (handleNonStreamingResponse E youReq st)
      = Some StatusInternalServerError
  else
    exists resp,
      bodyOf (handleNonStreamingResponse E youReq st)
        = bodyOf st ++ [PCompletion resp] /\
      codeOf (handleNonStreamingResponse E youReq st) = Some StatusOK /\
      OpenAIResponse.Choices resp
        = [OpenAIChoice.mk (Message.mk "assistant" "") 0 "stop"].
Proof.
  intros Hlines Hdo Hcode. split; [|split].
  - unfold handleStreamingResponse. rewrite Hdo.
    by rewrite scanStreaming_no_marker by by apply streamLines_no_marker.
  - unfold handleStreamingResponse. rewrite Hdo.
    rewrite scanStreaming_no_marker by by apply streamLines_no_marker.
    exact Hcode.
  - destruct readErr.
    + unfold handleNonStreamingResponse. rewrite Hdo. split; [reflexivity|].
      unfold codeOf in *. cbn. by rewrite Hcode.
    + destruct (handleNonStreamingResponse_read E youReq st lines Hdo)
        as (resp & Hbody & _ & _ & Hchoices & _).
      exists resp. split; [exact Hbody|]. split.
      * by apply (handleNonStreamingResponse_code E youReq st lines).
      * rewrite Hchoices.
        by rewrite (scanNonStreaming_yields E lines [] ""
                      (Yields_no_marker E lines Hlines)).
Qed.

Lemma no_token_event_no_text_witness :
  (bodyOf (handleStreamingResponse (refEnv (DoResp updateStream false))
             plainRequest (initSt "gpt-4o")) = bodyOf (initSt "gpt-4o") /\
   codeOf (handleStreamingResponse (refEnv (DoResp updateStream false))
             plainRequest (initSt "gpt-4o")) = None /\
   exists resp,
     bodyOf (handleNonStreamingResponse (refEnv (DoResp updateStream false))
               plainRequest (initSt "gpt-4o"))
       = bodyOf (initSt "gpt-4o") ++ [PCompletion resp] /\
     codeOf (handleNonStreamingResponse (refEnv (DoResp updateStream false))
               plainRequest (initSt "gpt-4o")) = Some StatusOK /\
     OpenAIResponse.Choices resp
       = [OpenAIChoice.mk (Message.mk "assistant" "") 0 "stop"]) /\
  (bodyOf (handleStreamingResponse (refEnv (DoResp updateStream true))
             plainRequest (initSt "gpt-4o")) = bodyOf (initSt "gpt-4o") /\
   codeOf (handleStreamingResponse (refEnv (DoResp updateStream true))
             plainRequest (initSt "gpt-4o")) = None /\
   bodyOf (handleNonStreamingResponse (refEnv (DoResp updateStream true))
             plainRequest (initSt "gpt-4o"))
     = bodyOf (initSt "gpt-4o") ++ [PText ("Error reading response" +:+ newline)] /\
   codeOf (handleNonStreamingResponse (refEnv (DoResp updateStream true))
             plainRequest (initSt "gpt-4o"))
     = Some StatusInternalServerError).
Proof.
  assert (Hlines : Forall (fun line => HasPrefix line tokenEvent = false)
                     updateStream).
  { unfold updateStream. repeat (constructor; [reflexivity|]). constructor. }
  split.
  - apply (no_token_event_no_text (refEnv (DoResp updateStream false))
             plainRequest (initSt "gpt-4o") updateStream false Hlines);
      reflexivity.
  - apply (no_token_event_no_text (refEnv (DoResp updateStream true))
             plainRequest (initSt "gpt-4o") updateStream true Hlines);
      reflexivity.
Defined.

(** ** The handler, case by case *)

(** The handler on a chat-completions path. *)
Lemma Handler_chat_path (E : Env) (r : Request.t) (st : St) :
  isChatPath (Request.Path r) = true ->
  Handler E r st =
    if String.eqb (Request.Method r) "OPTIONS" then
      Returned (WriteHeader StatusOK (withCORS st))
    else if negb (HasPrefix (Request.Authorization r) "Bearer ") then
      Returned (httpError "Missing or invalid authorization header"
                  StatusUnauthorized (withCORS st))
    else
      match Request.Body r with
      | None => Returned (httpError "Invalid request body" StatusBadRequest
                            (withCORS st))
      | Some openAIReq =>
          let st := setOriginalModel (OpenAIRequest.Model openAIReq) (withCORS st) in
          let messages := OpenAIRequest.Messages openAIReq in
          match index messages (Z.of_nat (length messages) - 1) with
          | None => Panicked st "runtime error: index out of range [-1]"
          | Some final =>
              let youReq :=
                upstreamRequest E openAIReq (Request.Authorization r) final in
              if negb (OpenAIRequest.Stream openAIReq)
              then Returned (handleNonStreamingResponse E youReq st)
              else Returned (handleStreamingResponse E youReq st)
          end
      end.
Proof.
  intros Hpath. unfold Handler.
  rewrite (isChatPath_not_models _ Hpath), Hpath. reflexivity.
Qed.

Lemma headerOf_withCORS (st : St) :
  headerOf (withCORS st) !! "Access-Control-Allow-Origin" = Some "*" /\
  headerOf (withCORS st) !! "Access-Control-Allow-Methods"
    = Some "GET, POST, OPTIONS" /\
  headerOf (withCORS st) !! "Access-Control-Allow-Headers" = Some "*".
Proof.
  unfold headerOf, withCORS, HeaderSet, withWriter. cbn [w ResponseWriter.Header].
  split; [|split].
  - rewrite !lookup_insert_ne by discriminate. apply lookup_insert_eq.
  - rewrite lookup_insert_ne by discriminate. apply lookup_insert_eq.
  - apply lookup_insert_eq.
Qed.

Lemma headerOf_httpError (key msg : string) (code : Z) (st : St) :
  key ∉ handlerKeys ->
  headerOf (httpError msg code st) !! key = headerOf st !! key.
Proof.
  intros Hkey. unfold handlerKeys in Hkey.
  rewrite !not_elem_of_cons in Hkey. destruct Hkey as (H1 & H2 & H3 & _).
  unfold headerOf, httpError, Write, WriteHeader, HeaderSet, HeaderDel, withWriter.
  cbn [w ResponseWriter.Header].
  rewrite !lookup_insert_ne by congruence. by rewrite lookup_delete_ne by congruence.
Qed.

Lemma headerOf_handleNonStreamingResponse (E : Env) key youReq st :
  key ∉ handlerKeys ->
  headerOf (handleNonStreamingResponse E youReq st) !! key = headerOf st !! key.
Proof.
  intros Hkey. unfold handleNonStreamingResponse.
  destruct (clientDo E youReq) as [msg|lines []].
  - by rewrite headerOf_httpError.
  - by rewrite headerOf_httpError.
  - unfold handlerKeys in Hkey.
    rewrite !not_elem_of_cons in Hkey. destruct Hkey as (H1 & _).
    unfold headerOf. cbn [timeNowUnix w ResponseWriter.Header Write WriteHeader
                          HeaderSet withWriter recordSent].
    by rewrite lookup_insert_ne by congruence.
Qed.

Lemma headerOf_handleStreamingResponse (E : Env) key youReq st :
  key ∉ handlerKeys ->
  headerOf (handleStreamingResponse E youReq st) !! key = headerOf st !! key.
Proof.
  intros Hkey. unfold handleStreamingResponse.
  destruct (clientDo E youReq) as [msg|lines readErr].
  - by rewrite headerOf_httpError.
  - match goal with
    | |- context [scanStreaming E ?l ?s] =>
        destruct (streaming_writes_only_chunks E l s) as (_ & _ & _ & _ & _ & Hh & _)
    end.
    rewrite Hh. unfold handlerKeys in Hkey.
    rewrite !not_elem_of_cons in Hkey. destruct Hkey as (H1 & _ & _ & H4 & H5 & _).
    unfold headerOf, HeaderSet, withWriter, recordSent. cbn [w ResponseWriter.Header].
    by rewrite !lookup_insert_ne by congruence.
Qed.

(** X5. Every answer on a chat-completions path carries the three
    permissive CORS headers, whatever the method, the credentials, the
    body and the upstream do: the preflight, the 401 and 400 errors, the
    upstream failures, the completion and the event stream all keep
    them, and so does the state left by a panic. *)
Theorem chat_path_keeps_CORS (E : Env) (r : Request.t) (st : St) :
  isChatPath (Request.Path r) = true ->
  headerOf (finalSt (Handler E r st)) !! "Access-Control-Allow-Origin"
    = Some "*" /\
  headerOf (finalSt (Handler E r st)) !! "Access-Control-Allow-Methods"
    = Some "GET, POST, OPTIONS" /\
  headerOf (finalSt (Handler E r st)) !! "Access-Control-Allow-Headers"
    = Some "*".
Proof.
  intros Hpath. rewrite (Handler_chat_path E r st Hpath).
  assert (Hkeys : forall key,
             key ∈ ["Access-Control-Allow-Origin"; "Access-Control-Allow-Methods";
                    "Access-Control-Allow-Headers"] ->
             key ∉ handlerKeys).
  { intros key Hin Hbad. unfold handlerKeys in Hbad.
    repeat (apply elem_of_cons in Hin as [->|Hin]);
      [| | |by apply elem_of_nil in Hin];
      repeat (apply elem_of_cons in Hbad as [Hbad|Hbad]; [discriminate|]);
      by apply elem_of_nil in Hbad. }
  assert (Hall : forall st',
             (forall key, key ∉ handlerKeys ->
                          headerOf st' !! key = headerOf (withCORS st) !! key) ->
             headerOf st' !! "Access-Control-Allow-Origin" = Some "*" /\
             headerOf st' !! "Access-Control-Allow-Methods"
               = Some "GET, POST, OPTIONS" /\
             headerOf st' !! "Access-Control-Allow-Headers" = Some "*").
  { intros st' Hst'. destruct (headerOf_withCORS st) as (H1 & H2 & H3).
    rewrite !Hst' by (apply Hkeys; set_solver). done. }
  destruct (String.eqb (Request.Method r) "OPTIONS").
  { apply Hall. intros key _. reflexivity. }
  destruct (negb (HasPrefix (Request.Authorization r) "Bearer ")).
  { cbn [finalSt]. apply Hall. intros key Hkey. by apply headerOf_httpError. }
  destruct (Request.Body r) as [openAIReq|].
  2: { cbn [finalSt]. apply Hall. intros key Hkey. by apply headerOf_httpError. }
  cbv zeta.
  destruct (index (OpenAIRequest.Messages openAIReq) _) as [final|].
  2: { apply Hall. intros key _. reflexivity. }
  destruct (negb (OpenAIRequest.Stream openAIReq)); cbn [finalSt];
    apply Hall; intros key Hkey.
  - by rewrite headerOf_handleNonStreamingResponse.
  - by rewrite headerOf_handleStreamingResponse.
Qed.

Lemma chat_path_keeps_CORS_witness :
  headerOf (finalSt (Handler (refEnv (DoErr "timeout"))
                       (Request.mk "/such/chat/completions" "POST" "Bearer secret"
                          (Some (OpenAIRequest.mk [Message.mk "user" "Hi"] true "o1")))
                       (initSt ""))) !! "Access-Control-Allow-Origin"
    = Some "*" /\
  headerOf (finalSt (Handler (refEnv (DoErr "timeout"))
                       (Request.mk "/such/chat/completions" "POST" "Bearer secret"
                          (Some (OpenAIRequest.mk [Message.mk "user" "Hi"] true "o1")))
                       (initSt ""))) !! "Access-Control-Allow-Methods"
    = Some "GET, POST, OPTIONS" /\
  headerOf (finalSt (Handler (refEnv (DoErr "timeout"))
                       (Request.mk "/such/chat/completions" "POST" "Bearer secret"
                          (Some (OpenAIRequest.mk [Message.mk "user" "Hi"] true "o1")))
                       (initSt ""))) !! "Access-Control-Allow-Headers"
    = Some "*".
Proof.
  apply (chat_path_keeps_CORS (refEnv (DoErr "timeout"))
           (Request.mk "/such/chat/completions" "POST" "Bearer secret"
              (Some (OpenAIRequest.mk [Message.mk "user" "Hi"] true "o1")))
           (initSt "")).
  reflexivity.
Defined.

Lemma originalModel_handleNonStreamingResponse (E : Env) youReq st :
  originalModel (handleNonStreamingResponse E youReq st) = originalModel st.
Proof.
  unfold handleNonStreamingResponse.
  destruct (clientDo E youReq) as [msg|lines []]; reflexivity.
Qed.

Lemma originalModel_handleStreamingResponse (E : Env) youReq st :
  originalModel (handleStreamingResponse E youReq st) = originalModel st.
Proof.
  unfold handleStreamingResponse.
  destruct (clientDo E youReq) as [msg|lines readErr]; [reflexivity|].
  match goal with
  | |- context [scanStreaming E ?l ?s] =>
      destruct (streaming_writes_only_chunks E l s) as (_ & _ & _ & _ & _ & _ & Ho)
  end.
  by rewrite Ho.
Qed.

(** A request that is not a decoded, authorized chat request is answered
    by the handler itself. *)
Lemma Handler_other (E : Env) (r : Request.t) (st : St) :
  chatRequest r = None ->
  exists st',
    Handler E r st = Returned st' /\
    sent st' = sent st /\
    originalModel st' = originalModel st.
Proof.
  unfold chatRequest. intros Hreq. unfold Handler.
  destruct (isModelsPath (Request.Path r)).
  { destruct (String.eqb (Request.Method r) "OPTIONS"); eexists; by repeat split. }
  destruct (isChatPath (Request.Path r)); cbn [negb andb] in *;
    [|eexists; by repeat split].
  destruct (String.eqb (Request.Method r) "OPTIONS"); cbn [negb andb] in *;
    [eexists; by repeat split|].
  destruct (HasPrefix (Request.Authorization r) "Bearer "); cbn [negb] in *;
    [|eexists; by repeat split].
  rewrite Hreq. eexists; by repeat split.
Qed.

(** A decoded, authorized chat request reaches the message list. *)
Lemma Handler_decoded (E : Env) (r : Request.t) (st : St) (openAIReq : OpenAIRequest.t) :
  chatRequest r = Some openAIReq ->
  Handler E r st =
    let st := setOriginalModel (OpenAIRequest.Model openAIReq) (withCORS st) in
    match last (OpenAIRequest.Messages openAIReq) with
    | None => Panicked st "runtime error: index out of range [-1]"
    | Some final =>
        let youReq := upstreamRequest E openAIReq (Request.Authorization r) final in
        if negb (OpenAIRequest.Stream openAIReq)
        then Returned (handleNonStreamingResponse E youReq st)
        else Returned (handleStreamingResponse E youReq st)
    end.
Proof.
  unfold chatRequest. intros Hreq.
  destruct (isChatPath (Request.Path r)) eqn:Hpath; [|discriminate].
  destruct (String.eqb (Request.Method r) "OPTIONS") eqn:Hmethod; [discriminate|].
  destruct (HasPrefix (Request.Authorization r) "Bearer ") eqn:Hauth; [|discriminate].
  cbn [negb andb] in Hreq.
  rewrite (Handler_chat E r st openAIReq Hpath Hmethod Hauth Hreq).
  cbv zeta. by rewrite index_last.
Qed.

(** X6. One client request leads to at most one upstream request.  The
    handler hands a request to [client.Do] exactly when the client
    request passes the routing, the preflight and the authorization
    checks, its body decodes and its message list is not empty; that
    request is the one built from the decoded body, the header and the
    last message.  In every other case nothing is sent. *)
Theorem upstream_called_exactly_once (E : Env) (r : Request.t) (st : St) :
  sent (finalSt (Handler E r st))
  = sent st ++
    match chatRequest r with
    | Some openAIReq =>
        match last (OpenAIRequest.Messages openAIReq) with
        | Some final =>
            [upstreamRequest E openAIReq (Request.Authorization r) final]
        | None => []
        end
    | None => []
    end.
Proof.
  destruct (chatRequest r) as [openAIReq|] eqn:Hreq.
  - rewrite (Handler_decoded E r st openAIReq Hreq). cbv zeta.
    destruct (last (OpenAIRequest.Messages openAIReq)) as [final|].
    + destruct (negb (OpenAIRequest.Stream openAIReq)); cbn [finalSt].
      * by rewrite sent_handleNonStreamingResponse.
      * by rewrite sent_handleStreamingResponse.
    + cbn [finalSt]. by rewrite app_nil_r.
  - destruct (Handler_other E r st Hreq) as (st' & -> & Hsent & _).
    cbn [finalSt]. by rewrite app_nil_r.
Qed.

(** *** The two panic sites *)

Lemma scanStreamingOn_other (E : Env) flusher line unread st :
  HasPrefix line tokenEvent = false ->
  scanStreamingOn E flusher (line :: unread) st = scanStreamingOn E flusher unread st.
Proof. intros H. cbn [scanStreamingOn]. by rewrite H. Qed.

Lemma scanStreamingOn_event (E : Env) flusher event unread st :
  HasPrefix event tokenEvent = true ->
  scanStreamingOn E flusher (event :: unread) st
  = if flusher
    then scanStreamingOn E flusher (scanRest unread) (emitChunk E (scanText unread) st)
    else Panicked (emitChunk E (scanText unread) st)
           "interface conversion: not http.Flusher: missing method Flush".
Proof.
  intros Hev. cbn [scanStreamingOn]. rewrite Hev. unfold emitChunk.
  destruct (jsonUnmarshal E (TrimPrefix (scanText unread) dataPrefix))
    as [err token].
  cbn [snd]. destruct (streamChunk E token st) as [openAIResp st'].
  reflexivity.
Qed.

(** On a writer with [Flush] the loop is [scanStreaming]. *)
Lemma scanStreamingOn_flusher (E : Env) lines st :
  scanStreamingOn E true lines st = Returned (scanStreaming E lines st).
Proof.
  remember (length lines) as n eqn:Hn. revert lines st Hn.
  induction n as [n IH] using lt_wf_ind. intros lines st ->.
  destruct lines as [|line unread]; [reflexivity|].
  destruct (HasPrefix line tokenEvent) eqn:Hev.
  - rewrite scanStreamingOn_event, scanStreaming_event by done.
    apply (IH (length (scanRest unread))); [|reflexivity].
    destruct unread; simpl; lia.
  - rewrite scanStreamingOn_other, scanStreaming_other by done.
    apply (IH (length unread)); [simpl; lia|reflexivity].
Qed.

(** On a writer without [Flush] the loop panics at the first marker. *)
Lemma isPanicked_scanStreamingOn (E : Env) lines st :
  isPanicked (scanStreamingOn E false lines st)
  = existsb (fun line => HasPrefix line tokenEvent) lines.
Proof.
  induction lines as [|line unread IH]; [reflexivity|].
  cbn [existsb]. destruct (HasPrefix line tokenEvent) eqn:Hev.
  - by rewrite scanStreamingOn_event by done.
  - by rewrite scanStreamingOn_other by done.
Qed.

Lemma handleStreamingResponseOn_flusher (E : Env) youReq st :
  handleStreamingResponseOn E true youReq st
  = Returned (handleStreamingResponse E youReq st).
Proof.
  unfold handleStreamingResponseOn, handleStreamingResponse.
  destruct (clientDo E youReq) as [msg|lines readErr]; [reflexivity|].
  apply scanStreamingOn_flusher.
Qed.

Lemma HandlerOn_other (E : Env) flusher (r : Request.t) (st : St) :
  chatRequest r = None ->
  HandlerOn E flusher r st = Handler E r st.
Proof.
  unfold chatRequest. intros Hreq. unfold HandlerOn, Handler.
  destruct (isModelsPath (Request.Path r)); [reflexivity|].
  destruct (isChatPath (Request.Path r)); cbn [negb andb] in *; [|reflexivity].
  destruct (String.eqb (Request.Method r) "OPTIONS"); cbn [negb andb] in *;
    [reflexivity|].
  destruct (HasPrefix (Request.Authorization r) "Bearer "); cbn [negb] in *;
    [|reflexivity].
  rewrite Hreq. reflexivity.
Qed.

Lemma HandlerOn_decoded (E : Env) flusher (r : Request.t) (st : St)
    (openAIReq : OpenAIRequest.t) :
  chatRequest r = Some openAIReq ->
  HandlerOn E flusher r st =
    let st := setOriginalModel (OpenAIRequest.Model openAIReq) (withCORS st) in
    match last (OpenAIRequest.Messages openAIReq) with
    | None => Panicked st "runtime error: index out of range [-1]"
    | Some final =>
        let youReq := upstreamRequest E openAIReq (Request.Authorization r) final in
        if negb (OpenAIRequest.Stream openAIReq)
        then Returned (handleNonStreamingResponse E youReq st)
        else handleStreamingResponseOn E flusher youReq st
    end.
Proof.
  unfold chatRequest. intros Hreq.
  destruct (isChatPath (Request.Path r)) eqn:Hpath; [|discriminate].
  destruct (String.eqb (Request.Method r) "OPTIONS") eqn:Hmethod; [discriminate|].
  destruct (HasPrefix (Request.Authorization r) "Bearer ") eqn:Hauth; [|discriminate].
  cbn [negb andb] in Hreq.
  unfold HandlerOn.
  rewrite (isChatPath_not_models _ Hpath), Hpath, Hmethod, Hauth, Hreq.
  cbn [negb]. cbv zeta. rewrite index_last. reflexivity.
Qed.

(** On a writer with [Flush] the handler is [Handler]. *)
Lemma HandlerOn_flusher (E : Env) (r : Request.t) (st : St) :
  HandlerOn E true r st = Handler E r st.
Proof.
  destruct (chatRequest r) as [openAIReq|] eqn:Hreq.
  - rewrite (HandlerOn_decoded E true r st openAIReq Hreq).
    rewrite (Handler_decoded E r st openAIReq Hreq). cbv zeta.
    destruct (last (OpenAIRequest.Messages openAIReq)) as [final|]; [|reflexivity].
    destruct (negb (OpenAIRequest.Stream openAIReq)); [reflexivity|].
    apply handleStreamingResponseOn_flusher.
  - by apply HandlerOn_other.
Qed.

(** X14. The handler has two panic sites and no other.  The first is
    the unguarded index into the message list: a chat request that
    passed the preflight and authorization checks and whose decoded
    message list is empty.  The second is the unchecked type assertion
    [w.(http.Flusher)] of the streaming loop: a streaming request with
    messages, on a writer that has no [Flush], panics when the upstream
    answers and the streaming scanner delivers at least one token-event
    marker line (the first chunk is written, then the assertion fails).
    On a writer with [Flush], where the handler is [Handler], only the
    first remains, and no upstream behaviour makes the handler panic. *)
Theorem handler_panic_sites (E : Env) (flusher : bool) (r : Request.t) (st : St) :
  HandlerOn E true r st = Handler E r st /\
  (isPanicked (HandlerOn E flusher r st) = true <->
   exists openAIReq,
     chatRequest r = Some openAIReq /\
     match last (OpenAIRequest.Messages openAIReq) with
     | None => True
     | Some final =>
         flusher = false /\
         OpenAIRequest.Stream openAIReq = true /\
         exists lines readErr,
           clientDo E (upstreamRequest E openAIReq (Request.Authorization r) final)
             = DoResp lines readErr /\
           existsb (fun line => HasPrefix line tokenEvent) (streamLines lines)
             = true
     end).
Proof.
  split; [apply HandlerOn_flusher|].
  destruct (chatRequest r) as [openAIReq|] eqn:Hreq.
  - rewrite (HandlerOn_decoded E flusher r st openAIReq Hreq). cbv zeta.
    destruct (last (OpenAIRequest.Messages openAIReq)) as [final|] eqn:Hlast.
    + destruct (OpenAIRequest.Stream openAIReq) eqn:Hstream; cbn [negb].
      * unfold handleStreamingResponseOn.
        destruct (clientDo E (upstreamRequest E openAIReq (Request.Authorization r) final))
          as [msg|lines readErr] eqn:Hdo.
        { split; [discriminate|].
          intros (req & Heq & Hsite). injection Heq as <-.
          rewrite Hlast in Hsite.
          destruct Hsite as (_ & _ & lines & readErr & Hdo' & _). congruence. }
        destruct flusher.
        { rewrite scanStreamingOn_flusher. split; [discriminate|].
          intros (req & Heq & Hsite). injection Heq as <-.
          rewrite Hlast in Hsite. by destruct Hsite as (? & _). }
        rewrite isPanicked_scanStreamingOn. split.
        { intros Hmark. exists openAIReq. split; [reflexivity|].
          rewrite Hlast. split; [reflexivity|]. split; [exact Hstream|].
          by exists lines, readErr. }
        intros (req & Heq & Hsite). injection Heq as <-.
        rewrite Hlast in Hsite.
        destruct Hsite as (_ & _ & lines' & readErr' & Hdo' & Hmark).
        rewrite Hdo in Hdo'. by injection Hdo' as <- <-.
      * split; [discriminate|].
        intros (req & Heq & Hsite). injection Heq as <-.
        rewrite Hlast in Hsite. destruct Hsite as (_ & Hs & _).
        rewrite Hstream in Hs. discriminate.
    + split; [|reflexivity]. intros _. exists openAIReq.
      split; [reflexivity|]. by rewrite Hlast.
  - rewrite (HandlerOn_other E flusher r st Hreq).
    destruct (Handler_other E r st Hreq) as (st' & -> & _). split.
    + discriminate.
    + intros (req & Heq & _). discriminate.
Qed.

(** The second panic site, run: the streaming request below, on a writer
    without [Flush], panics after its first chunk; on net/http's writer
    it returns with both chunks. *)
Example flusher_run :
  isPanicked (HandlerOn (refEnv (DoResp helloStream false)) false
                (Request.mk "/v1/chat/completions" "POST" "Bearer secret"
                   (Some (OpenAIRequest.mk [Message.mk "user" "Hi"] true "gpt-4o")))
                (initSt "")) = true /\
  length (chunksOf (bodyOf (finalSt
            (HandlerOn (refEnv (DoResp helloStream false)) false
               (Request.mk "/v1/chat/completions" "POST" "Bearer secret"
                  (Some (OpenAIRequest.mk [Message.mk "user" "Hi"] true "gpt-4o")))
               (initSt ""))))) = 1%nat /\
  isPanicked (HandlerOn (refEnv (DoResp helloStream false)) true
                (Request.mk "/v1/chat/completions" "POST" "Bearer secret"
                   (Some (OpenAIRequest.mk [Message.mk "user" "Hi"] true "gpt-4o")))
                (initSt "")) = false /\
  length (chunksOf (bodyOf (finalSt
            (HandlerOn (refEnv (DoResp helloStream false)) true
               (Request.mk "/v1/chat/completions" "POST" "Bearer secret"
                  (Some (OpenAIRequest.mk [Message.mk "user" "Hi"] true "gpt-4o")))
               (initSt ""))))) = 2%nat.
Proof. vm_compute. repeat split; reflexivity. Qed.

(** X16. What one run of the handler does to the package-level
    variable [originalModel].  A request that a check answers (a path
    other than the chat path, a preflight, a header without the bearer
    prefix, a body that does not decode) does not assign it.  A decoded
    chat request assigns its model name to it before it looks at the
    message list: the request that panics on an empty list has already
    replaced the value the next request will find, and a request with
    messages hands the state with that value to its response handler.
    The response handlers only read the variable: whatever value they
    are started with, they return it. *)
Theorem originalModel_assignment (E : Env) (r : Request.t) (st : St) :
  match chatRequest r with
  | None =>
      exists st',
        Handler E r st = Returned st' /\ originalModel st' = originalModel st
  | Some openAIReq =>
      exists st1,
        originalModel st1 = OpenAIRequest.Model openAIReq /\
        match last (OpenAIRequest.Messages openAIReq) with
        | None =>
            Handler E r st = Panicked st1 "runtime error: index out of range [-1]"
        | Some final =>
            Handler E r st
            = Returned
                ((if OpenAIRequest.Stream openAIReq
                  then handleStreamingResponse E
                  else handleNonStreamingResponse E)
                   (upstreamRequest E openAIReq (Request.Authorization r) final)
                   st1)
        end
  end /\
  forall youReq st0,
    originalModel (handleNonStreamingResponse E youReq st0) = originalModel st0 /\
    originalModel (handleStreamingResponse E youReq st0) = originalModel st0.
Proof.
  split.
  - destruct (chatRequest r) as [openAIReq|] eqn:Hreq.
    + rewrite (Handler_decoded E r st openAIReq Hreq). cbv zeta.
      exists (setOriginalModel (OpenAIRequest.Model openAIReq) (withCORS st)).
      split; [reflexivity|].
      destruct (last (OpenAIRequest.Messages openAIReq)) as [final|];
        [|reflexivity].
      by destruct (OpenAIRequest.Stream openAIReq).
    + destruct (Handler_other E r st Hreq) as (st' & Hrun & _ & Ho).
      by exists st'.
  - intros youReq st0. split.
    + apply originalModel_handleNonStreamingResponse.
    + apply originalModel_handleStreamingResponse.
Qed.

(** The assignment, run: the request with an empty message list panics
    and leaves its model name in the variable. *)
Example originalModel_run :
  originalModel (finalSt (Handler (refEnv (DoErr ""))
                   (Request.mk "/v1/chat/completions" "POST" "Bearer secret"
                      (Some (OpenAIRequest.mk [] false "gpt-4o")))
                   (initSt "claude-3-opus"))) = "gpt-4o" /\
  originalModel (finalSt (Handler (refEnv (DoErr ""))
                   (Request.mk "/v1/chat/completions" "POST" "Basic secret"
                      (Some (OpenAIRequest.mk [] false "gpt-4o")))
                   (initSt "claude-3-opus"))) = "claude-3-opus".
Proof. vm_compute. split; reflexivity. Qed.

(** X17. A chat request that passes the authorization check but whose
    body does not decode is answered 400 with the plain-text message
    "Invalid request body"; nothing is sent upstream and
    [originalModel] is not touched. *)
Theorem invalid_body_rejected (E : Env) (r : Request.t) (st : St) :
  isChatPath (Request.Path r) = true ->
  String.eqb (Request.Method r) "OPTIONS" = false ->
  HasPrefix (Request.Authorization r) "Bearer " = true ->
  Request.Body r = None ->
  codeOf st = None ->
  exists st',
    Handler E r st = Returned st' /\
    codeOf st' = Some StatusBadRequest /\
    bodyOf st' = bodyOf st ++ [PText ("Invalid request body" +:+ newline)] /\
    headerOf st' !! "Content-Type" = Some "text/plain; charset=utf-8" /\
    sent st' = sent st /\
    originalModel st' = originalModel st.
Proof.
  intros Hpath Hmethod Hauth Hbody Hcode.
  rewrite (Handler_chat_path E r st Hpath), Hmethod, Hauth, Hbody. cbn [negb].
  eexists. split; [reflexivity|]. split; [|split; [reflexivity|split]].
  - unfold codeOf in *. cbn. by rewrite Hcode.
  - unfold headerOf. cbn. rewrite lookup_insert_ne by discriminate.
    apply lookup_insert_eq.
  - by split.
Qed.

Lemma invalid_body_rejected_witness :
  exists st',
    Handler (refEnv (DoResp helloStream false))
      (Request.mk "/v1/chat/completions" "POST" "Bearer secret" None)
      (initSt "gpt-4o") = Returned st' /\
    codeOf st' = Some StatusBadRequest /\
    bodyOf st'
      = bodyOf (initSt "gpt-4o") ++ [PText ("Invalid request body" +:+ newline)] /\
    headerOf st' !! "Content-Type" = Some "text/plain; charset=utf-8" /\
    sent st' = sent (initSt "gpt-4o") /\
    originalModel st' = originalModel (initSt "gpt-4o").
Proof.
  apply (invalid_body_rejected (refEnv (DoResp helloStream false))
           (Request.mk "/v1/chat/completions" "POST" "Bearer secret" None)
           (initSt "gpt-4o"));
    reflexivity.
Defined.

(** ** The upstream request *)

Lemma QueryGet_cons (k v key : string) (q : list (string * string)) :
  QueryGet ((k, v) :: q) key = if decide (k = key) then Some v else QueryGet q key.
Proof. unfold QueryGet. cbn [list_to_map foldr]. apply lookup_insert. Qed.

Ltac query_get :=
  repeat (rewrite QueryGet_cons;
          first [ rewrite decide_True by reflexivity
                | rewrite decide_False by discriminate ]);
  reflexivity.

Lemma youHeaders_no_cookie : youHeaders !! "Cookie" = None.
Proof. vm_compute. reflexivity. Qed.

Lemma youHeaders_accept : youHeaders !! "Accept" = Some ["text/event-stream"].
Proof. vm_compute. reflexivity. Qed.

Lemma cookieStrings_map (cookies : gmap string string) :
  cookieStrings cookies
  = (fun nv => nv.1 +:+ "=" +:+ nv.2) <$> map_to_list cookies.
Proof. unfold cookieStrings. by rewrite append_loop_map. Qed.

(** X7. The query of the upstream request, for every decoded chat
    request with a non-empty message list, streamed or not: the query
    text is the content of the last message, pastChatLength is the
    number of messages minus one in decimal, selectedAiModel is the
    translated model name, chat is the encoding of the history records
    of all the messages in order; the request is a GET to the streaming
    search endpoint with fourteen parameters, each added once. *)
Theorem upstream_query (E : Env) (r : Request.t) (st : St)
    (openAIReq : OpenAIRequest.t) (final : Message.t) :
  chatRequest r = Some openAIReq ->
  last (OpenAIRequest.Messages openAIReq) = Some final ->
  exists youReq,
    sent (finalSt (Handler E r st)) = sent st ++ [youReq] /\
    YouRequest.Method youReq = "GET" /\
    YouRequest.URL youReq = "https://you.com/api/streamingSearch" /\
    QueryGet (YouRequest.Query youReq) "q" = Some (Message.Content final) /\
    QueryGet (YouRequest.Query youReq) "pastChatLength"
      = Some (pretty (Z.of_nat (length (OpenAIRequest.Messages openAIReq)) - 1)) /\
    QueryGet (YouRequest.Query youReq) "selectedAiModel"
      = Some (mapModelName (OpenAIRequest.Model openAIReq)) /\
    QueryGet (YouRequest.Query youReq) "selectedChatMode" = Some "custom" /\
    QueryGet (YouRequest.Query youReq) "chat"
      = Some (jsonMarshal E (chatMsgOf <$> OpenAIRequest.Messages openAIReq)) /\
    length (YouRequest.Query youReq) = 14%nat /\
    NoDup ((YouRequest.Query youReq).*1).
Proof.
  intros Hreq Hlast.
  exists (upstreamRequest E openAIReq (Request.Authorization r) final).
  split.
  { rewrite (Handler_decoded E r st openAIReq Hreq), Hlast. cbv zeta.
    destruct (negb (OpenAIRequest.Stream openAIReq)); cbn [finalSt].
    - by rewrite sent_handleNonStreamingResponse.
    - by rewrite sent_handleStreamingResponse. }
  unfold upstreamRequest, buildQuery.
  cbn [YouRequest.Method YouRequest.URL YouRequest.Query].
  rewrite buildChatHistory_map, length_fmap.
  split; [reflexivity|]. split; [reflexivity|].
  split; [query_get|]. split; [query_get|]. split; [query_get|].
  split; [query_get|]. split; [query_get|].
  split; [reflexivity|].
  cbn [fmap list_fmap fst].
  apply (bool_decide_unpack _). vm_compute. reflexivity.
Qed.

Lemma upstream_query_witness :
  exists youReq,
    sent (finalSt (Handler (refEnv (DoResp helloStream false))
                     (Request.mk "/v1/chat/completions" "POST" "Bearer secret"
                        (Some (OpenAIRequest.mk
                                 [Message.mk "system" "Be brief.";
                                  Message.mk "user" "Hi";
                                  Message.mk "assistant" "Hello!";
                                  Message.mk "user" "Bye"] true "o1")))
                     (initSt "")))
      = sent (initSt "") ++ [youReq] /\
    YouRequest.Method youReq = "GET" /\
    YouRequest.URL youReq = "https://you.com/api/streamingSearch" /\
    QueryGet (YouRequest.Query youReq) "q" = Some "Bye" /\
    QueryGet (YouRequest.Query youReq) "pastChatLength" = Some "3" /\
    QueryGet (YouRequest.Query youReq) "selectedAiModel" = Some "openai_o1" /\
    QueryGet (YouRequest.Query youReq) "selectedChatMode" = Some "custom" /\
    QueryGet (YouRequest.Query youReq) "chat"
      = Some (Json.marshalHistory
                [historyRecord "Be brief." ""; historyRecord "Hi" "";
                 historyRecord "" "Hello!"; historyRecord "Bye" ""]) /\
    length (YouRequest.Query youReq) = 14%nat /\
    NoDup ((YouRequest.Query youReq).*1).
Proof.
  destruct (upstream_query (refEnv (DoResp helloStream false))
              (Request.mk "/v1/chat/completions" "POST" "Bearer secret"
                 (Some (OpenAIRequest.mk
                          [Message.mk "system" "Be brief.";
                           Message.mk "user" "Hi";
                           Message.mk "assistant" "Hello!";
                           Message.mk "user" "Bye"] true "o1")))
              (initSt "")
              (OpenAIRequest.mk
                 [Message.mk "system" "Be brief.";
                  Message.mk "user" "Hi";
                  Message.mk "assistant" "Hello!";
                  Message.mk "user" "Bye"] true "o1")
              (Message.mk "user" "Bye") eq_refl eq_refl)
    as (youReq & H0 & H1 & H2 & H3 & H4 & H5 & H6 & H7 & H8 & H9).
  exists youReq. split; [exact H0|]. split; [exact H1|]. split; [exact H2|].
  split; [exact H3|]. split; [exact H4|]. split; [exact H5|]. split; [exact H6|].
  split; [exact H7|]. split; [exact H8|exact H9].
Defined.

(** The cookie map is the literal of [getCookies]. *)
Lemma getCookies_literal (dsToken : string) :
  getCookies dsToken
  = list_to_map
      [ ("youchat_smart_learn", "true");
        ("ai_model", "deepseek_r1");
        ("youpro_subscription", "true");
        ("you_subscription", "youpro_standard_year");
        ("DS", dsToken);
        ("youchat_personalization", "true");
        ("guest_has_seen_legal_disclaimer", "true") ].
Proof. reflexivity. Qed.

(** X8. The bearer token is forwarded as the DS cookie.  For a decoded
    chat request whose Authorization header is "Bearer " followed by
    [token] (the empty token included), the upstream request has one
    Cookie header value: the join with ";" of seven cookies, namely
    DS=[token] and the six fixed session cookies, in the order in which
    the cookie map is ranged over.  The fixed header bundle is kept
    (here: Accept). *)
Theorem bearer_token_forwarded (E : Env) (r : Request.t) (st : St)
    (openAIReq : OpenAIRequest.t) (final : Message.t) (token : string) :
  chatRequest r = Some openAIReq ->
  last (OpenAIRequest.Messages openAIReq) = Some final ->
  Request.Authorization r = "Bearer " +:+ token ->
  exists youReq cookies,
    sent (finalSt (Handler E r st)) = sent st ++ [youReq] /\
    YouRequest.Header youReq !! "Cookie" = Some [Join cookies ";"] /\
    cookies ≡ₚ [ "youchat_smart_learn=true";
                 "ai_model=deepseek_r1";
                 "youpro_subscription=true";
                 "you_subscription=youpro_standard_year";
                 "DS=" +:+ token;
                 "youchat_personalization=true";
                 "guest_has_seen_legal_disclaimer=true" ] /\
    YouRequest.Header youReq !! "Accept" = Some ["text/event-stream"].
Proof.
  intros Hreq Hlast Hauth.
  exists (upstreamRequest E openAIReq (Request.Authorization r) final),
         (cookieStrings (getCookies token)).
  split.
  { rewrite (Handler_decoded E r st openAIReq Hreq), Hlast. cbv zeta.
    destruct (negb (OpenAIRequest.Stream openAIReq)); cbn [finalSt].
    - by rewrite sent_handleNonStreamingResponse.
    - by rewrite sent_handleStreamingResponse. }
  unfold upstreamRequest. cbn [YouRequest.Header].
  rewrite Hauth, TrimPrefix_app. unfold HeaderAdd.
  split; [|split].
  - rewrite lookup_insert_eq. by rewrite youHeaders_no_cookie.
  - rewrite cookieStrings_map, getCookies_literal.
    rewrite map_to_list_to_map.
    + reflexivity.
    + apply (bool_decide_unpack _). vm_compute. reflexivity.
  - rewrite lookup_insert_ne by discriminate. apply youHeaders_accept.
Qed.

Lemma bearer_token_forwarded_witness :
  exists youReq cookies,
    sent (finalSt (Handler (refEnv (DoResp helloStream false))
                     (Request.mk "/v1/chat/completions" "POST" "Bearer secret"
                        (Some (OpenAIRequest.mk [Message.mk "user" "Hi"] false "gpt-4o")))
                     (initSt "")))
      = sent (initSt "") ++ [youReq] /\
    YouRequest.Header youReq !! "Cookie" = Some [Join cookies ";"] /\
    cookies ≡ₚ [ "youchat_smart_learn=true";
                 "ai_model=deepseek_r1";
                 "youpro_subscription=true";
                 "you_subscription=youpro_standard_year";
                 "DS=" +:+ "secret";
                 "youchat_personalization=true";
                 "guest_has_seen_legal_disclaimer=true" ] /\
    YouRequest.Header youReq !! "Accept" = Some ["text/event-stream"].
Proof.
  apply (bearer_token_forwarded (refEnv (DoResp helloStream false))
           (Request.mk "/v1/chat/completions" "POST" "Bearer secret"
              (Some (OpenAIRequest.mk [Message.mk "user" "Hi"] false "gpt-4o")))
           (initSt "")
           (OpenAIRequest.mk [Message.mk "user" "Hi"] false "gpt-4o")
           (Message.mk "user" "Hi") "secret");
    reflexivity.
Defined.

(** ** The model list and the reported model *)

Lemma listModels_map (created : Z) :
  listModels created
  = (fun kv => ModelDetail.mk kv.1 "model" created "organization-owner")
      <$> map_to_list modelMap.
Proof. unfold listModels. by rewrite append_loop_map. Qed.

Lemma listModels_ids (created : Z) :
  ModelDetail.ID <$> listModels created ≡ₚ modelTable.*1.
Proof.
  rewrite listModels_map, <- list_fmap_compose.
  rewrite <- (modelMap_order_values (map_to_list modelMap)) by reflexivity.
  reflexivity.
Qed.

(** X15. The model list.  A request for /v1/models or /api/v1/models
    that is not an OPTIONS request is answered, without any
    authorization and without an upstream call, by one list object whose
    entries are the 25 client model names of [modelMap], each exactly
    once (in the order in which the map is ranged over), every entry
    with the object "model", the owner "organization-owner" and the same
    creation time, read once from the clock. *)
Theorem model_list (E : Env) (r : Request.t) (st : St) :
  isModelsPath (Request.Path r) = true ->
  String.eqb (Request.Method r) "OPTIONS" = false ->
  exists st' response,
    Handler E r st = Returned st' /\
    bodyOf st' = bodyOf st ++ [PModels response] /\
    sent st' = sent st /\
    ModelResponse.Object response = "list" /\
    ModelDetail.ID <$> ModelResponse.Data response ≡ₚ modelTable.*1 /\
    length (ModelResponse.Data response) = 25%nat /\
    Forall (fun detail =>
              is_Some (modelMap !! ModelDetail.ID detail) /\
              ModelDetail.Object detail = "model" /\
              ModelDetail.OwnedBy detail = "organization-owner" /\
              ModelDetail.Created detail = unixNow E (clockReads st))
           (ModelResponse.Data response) /\
    headerOf st' !! "Access-Control-Allow-Methods" = Some "GET, OPTIONS".
Proof.
  intros Hpath Hmethod. unfold Handler. rewrite Hpath, Hmethod.
  eexists _, _. split; [reflexivity|]. split; [reflexivity|].
  split; [reflexivity|]. split; [reflexivity|].
  cbn [ModelResponse.Data timeNowUnix fst].
  split; [apply listModels_ids|]. split; [|split].
  - rewrite <- (length_fmap ModelDetail.ID), listModels_ids. reflexivity.
  - rewrite listModels_map. apply Forall_fmap, Forall_forall.
    intros [k v] Hin. apply elem_of_map_to_list in Hin.
    cbn. split; [by exists v|]. by repeat split.
  - unfold headerOf. cbn.
    rewrite lookup_insert_ne by discriminate. apply lookup_insert_eq.
Qed.

Lemma model_list_witness :
  exists st' response,
    Handler (refEnv (DoErr "unused"))
      (Request.mk "/api/v1/models" "GET" "" None) (initSt "") = Returned st' /\
    bodyOf st' = bodyOf (initSt "") ++ [PModels response] /\
    sent st' = sent (initSt "") /\
    ModelResponse.Object response = "list" /\
    ModelDetail.ID <$> ModelResponse.Data response ≡ₚ modelTable.*1 /\
    length (ModelResponse.Data response) = 25%nat /\
    Forall (fun detail =>
              is_Some (modelMap !! ModelDetail.ID detail) /\
              ModelDetail.Object detail = "model" /\
              ModelDetail.OwnedBy detail = "organization-owner" /\
              ModelDetail.Created detail
                = unixNow (refEnv (DoErr "unused")) (clockReads (initSt "")))
           (ModelResponse.Data response) /\
    headerOf st' !! "Access-Control-Allow-Methods" = Some "GET, OPTIONS".
Proof.
  apply (model_list (refEnv (DoErr "unused"))
           (Request.mk "/api/v1/models" "GET" "" None) (initSt ""));
    reflexivity.
Defined.
